(** * XLSX to JSONL conversion

    A shallow embedding of [services/convert_from_xlsx_to_json.py]:
    the JSON encoder hook [CustomJSONEncoder.default], the record
    normaliser [_sheet_to_record], the generator [iter_sheet_records], the
    output path resolver [_normalize_output_path] and the two entry points
    [convert] and [convert_bytes].

    Conventions of the model.
    - Python text is a [string] holding the UTF-8 bytes of the text; a file
      written with [encoding='utf-8'] therefore holds the same bytes.
    - The libraries the program calls (pandas, json, pathlib) are modelled
      by their documented behaviour, on POSIX paths ([os.sep] is "/").
      In particular [df.where(cond, None)] stores [None] in columns of
      objects only: a column of floats keeps NaN and a column of
      date/times keeps NaT.
    - A workbook is the ordered list of its sheets, each already parsed to
      a data frame ([xls.parse(sheet)]); column labels are strings.
    - The file system maps paths, as written, to directories and files;
      a command is a function from a file system to a file system and
      either the exception raised or the value returned. *)

From Stdlib Require Import ZArith Ascii DecimalString.
From stdpp Require Import gmap strings list.

Local Open Scope string_scope.
Local Open Scope list_scope.

Set Warnings "-register-all".

(** ** Characters and strings *)

Definition dquote : ascii := ascii_of_nat 34.
Definition newline : ascii := ascii_of_nat 10.
Definition nl : string := String newline "".

(** [s.count(c)] for a one-character needle. *)
Fixpoint count_char (c : ascii) (s : string) : nat :=
  match s with
  | EmptyString => 0
  | String a s' => (if Ascii.eqb a c then 1 else 0) + count_char c s'
  end.

(** [s.rfind(c)] for a one-character needle; [None] stands for -1. *)
Fixpoint rfind (c : ascii) (s : string) : option nat :=
  match s with
  | EmptyString => None
  | String a s' =>
      match rfind c s' with
      | Some i => Some (S i)
      | None => if Ascii.eqb a c then Some 0 else None
      end
  end.

(** [s.endswith(c)] for a one-character needle. *)
Fixpoint endswith (c : ascii) (s : string) : bool :=
  match s with
  | EmptyString => false
  | String a EmptyString => Ascii.eqb a c
  | String _ s' => endswith c s'
  end.

(** [sep.join(l)]. *)
Fixpoint join (sep : string) (l : list string) : string :=
  match l with
  | [] => ""
  | [x] => x
  | x :: l' => x +:+ sep +:+ join sep l'
  end.

(** [s.split(c)] for a one-character separator: the current segment is
    accumulated in reverse in [acc]. *)
Fixpoint split_on (c : ascii) (acc : string) (s : string) : list string :=
  match s with
  | EmptyString => [String.rev acc]
  | String a s' =>
      if Ascii.eqb a c then String.rev acc :: split_on c "" s'
      else split_on c (String a acc) s'
  end.

(** ** Exceptions *)

Inductive error :=
| TypeError
| ValueError
| AttributeError
| UnicodeDecodeError
| FileNotFoundError
| FileExistsError
| NotADirectoryError
| IsADirectoryError
| Unmodelled.   (* a library behaviour outside this model *)

Definition result (A : Type) : Type := (error + A)%type.

Definition rbind {A B} (r : result A) (k : A -> result B) : result B :=
  match r with
  | inl e => inl e
  | inr a => k a
  end.

(** ** Cell values and Python objects *)

(** What a data frame cell can hold.  A finite float is carried by the
    decimal literal its [repr] prints, a date/time value ([datetime],
    [pandas.Timestamp]) by the text its [isoformat()] returns, and any
    other object ([datetime.time], [Decimal], ...) by its type name. *)
Inductive cell :=
| CNone
| CNaN
| CNaT
| CBool (b : bool)
| CInt (z : Z)
| CFloat (d : Decimal.decimal)
| CStr (s : string)
| CNpInt (z : Z)
| CDatetime (iso : string)
| COther (type_name : string).

(** The objects handed to the JSON encoder: cells, lists, dicts with
    string keys (insertion ordered), and an instance of the
    [click.DateTime] parameter type, the class the module imports under
    the name [DateTime]. *)
Inductive pyobj :=
| PCell (c : cell)
| PClickDateTime
| PList (l : list pyobj)
| PDict (d : list (string * pyobj)).

(** Insertion-ordered dicts with string keys. *)
Section dict.
Context {V : Type}.

(** [d[k] = v]. *)
Fixpoint dict_set (k : string) (v : V) (d : list (string * V))
  : list (string * V) :=
  match d with
  | [] => [(k, v)]
  | (k', v') :: d' =>
      if String.eqb k' k then (k', v) :: d' else (k', v') :: dict_set k v d'
  end.

(** [d.get(k)]. *)
Fixpoint dict_get (k : string) (d : list (string * V)) : option V :=
  match d with
  | [] => None
  | (k', v') :: d' => if String.eqb k' k then Some v' else dict_get k d'
  end.

(** [dict(pairs)]. *)
Definition dict_of (kvs : list (string * V)) : list (string * V) :=
  fold_left (fun d kv => dict_set (fst kv) (snd kv) d) kvs [].
End dict.

(** ** JSON encoding ([json.dumps] with [ensure_ascii=False]) *)

Definition hex_digit (n : nat) : ascii :=
  nth n ["0"; "1"; "2"; "3"; "4"; "5"; "6"; "7"; "8"; "9";
         "a"; "b"; "c"; "d"; "e"; "f"]%char "0"%char.

(** The escape table of [json.encoder]: quote, backslash and the control
    characters below 0x20; every other byte is copied. *)
Definition escape_char (c : ascii) : string :=
  let n := nat_of_ascii c in
  if Nat.eqb n 34 then String "\" (String dquote "")
  else if Nat.eqb n 92 then "\\"
  else if Nat.eqb n 10 then "\n"
  else if Nat.eqb n 13 then "\r"
  else if Nat.eqb n 9 then "\t"
  else if Nat.eqb n 8 then "\b"
  else if Nat.eqb n 12 then "\f"
  else if Nat.ltb n 32 then
    "\u00" +:+ String (hex_digit (n / 16)) (String (hex_digit (n mod 16)) "")
  else String c "".

Fixpoint escape (s : string) : string :=
  match s with
  | EmptyString => ""
  | String c s' => escape_char c +:+ escape s'
  end.

Definition encode_basestring (s : string) : string :=
  String dquote (escape s +:+ String dquote "").

Definition int_repr (z : Z) : string := NilZero.string_of_int (Z.to_int z).

Definition float_repr (d : Decimal.decimal) : string :=
  match d with
  | Decimal.Decimal i f =>
      NilZero.string_of_int i +:+ "." +:+ NilZero.string_of_uint f
  | Decimal.DecimalExp i f e =>
      NilZero.string_of_int i +:+ "." +:+ NilZero.string_of_uint f
        +:+ "e" +:+ NilZero.string_of_int e
  end.

(** The values the encoder serialises by itself; [None] for those it
    hands to [default]. *)
Definition encode_native (c : cell) : option string :=
  match c with
  | CNone => Some "null"
  | CBool true => Some "true"
  | CBool false => Some "false"
  | CInt z => Some (int_repr z)
  | CFloat d => Some (float_repr d)
  | CNaN => Some "NaN"
  | CStr s => Some (encode_basestring s)
  | CNaT | CNpInt _ | CDatetime _ | COther _ => None
  end.

(** [json.JSONEncoder.default]: always raises [TypeError]. *)
Definition base_default (obj : pyobj) : result cell := inl TypeError.

(** [isinstance(obj, np.integer)]. *)
Definition is_np_integer (obj : pyobj) : bool :=
  match obj with
  | PCell (CNpInt _) => true
  | _ => false
  end.

(** [type(obj) is DateTime], where [DateTime] is [click.DateTime]. *)
Definition type_is_DateTime (obj : pyobj) : bool :=
  match obj with
  | PClickDateTime => true
  | _ => false
  end.

(** [obj.isoformat()]: defined on date/time values only. *)
Definition isoformat (obj : pyobj) : result string :=
  match obj with
  | PCell (CDatetime iso) => inr iso
  | _ => inl AttributeError
  end.

(** [int(obj)] on a NumPy integer. *)
Definition int_of (obj : pyobj) : Z :=
  match obj with
  | PCell (CNpInt z) => z
  | _ => 0%Z
  end.

(** [CustomJSONEncoder.default].  The value of [obj.isoformat()] is
    dropped, and a call that leaves the [except] block without [return]
    returns [None]. *)
Definition default (obj : pyobj) : result cell :=
  match base_default obj with
  | inr v => inr v
  | inl TypeError =>
      rbind (if type_is_DateTime obj
             then rbind (isoformat obj) (fun _ => inr tt)
             else inr tt)
        (fun _ =>
           if is_np_integer obj then inr (CInt (int_of obj)) else inr CNone)
  | inl e => inl e
  end.

(** The two encoders in use: [json.dumps(record, ensure_ascii=False)] and
    the same with [cls=CustomJSONEncoder]. *)
Inductive encoder := Base | Custom.

Definition encoder_default (enc : encoder) (obj : pyobj) : result cell :=
  match enc with
  | Base => base_default obj
  | Custom => default obj
  end.

(** An object the encoder cannot serialise goes through [default], and
    the value [default] returns is serialised in its place. *)
Definition encode_via_default (enc : encoder) (obj : pyobj) : result string :=
  rbind (encoder_default enc obj)
    (fun c => match encode_native c with
              | Some s => inr s
              | None => inl TypeError
              end).

Fixpoint encode (enc : encoder) (obj : pyobj) {struct obj} : result string :=
  match obj with
  | PCell c =>
      match encode_native c with
      | Some s => inr s
      | None => encode_via_default enc obj
      end
  | PClickDateTime => encode_via_default enc obj
  | PList l =>
      rbind
        ((fix items (l : list pyobj) : result (list string) :=
            match l with
            | [] => inr []
            | x :: l' =>
                rbind (encode enc x) (fun s =>
                rbind (items l') (fun ss => inr (s :: ss)))
            end) l)
        (fun ss => inr ("[" +:+ join ", " ss +:+ "]"))
  | PDict d =>
      rbind
        ((fix items (d : list (string * pyobj)) : result (list string) :=
            match d with
            | [] => inr []
            | (k, v) :: d' =>
                rbind (encode enc v) (fun s =>
                rbind (items d') (fun ss =>
                  inr ((encode_basestring k +:+ ": " +:+ s) :: ss)))
            end) d)
        (fun ss => inr ("{" +:+ join ", " ss +:+ "}"))
  end.

(** [json.dumps(obj, ensure_ascii=False, cls=...)]. *)
Definition dumps (enc : encoder) (obj : pyobj) : result string := encode enc obj.

(** ** Data frames and the record normaliser *)

Record DataFrame := {
  columns : list string;
  rows : list (list cell)
}.

(** [df.empty]: true when either axis has length zero. *)
Definition df_empty (df : DataFrame) : bool :=
  match columns df, rows df with
  | [], _ => true
  | _, [] => true
  | _, _ => false
  end.

(** [pd.notna] on one value. *)
Definition notna (c : cell) : bool :=
  match c with
  | CNone | CNaN | CNaT => false
  | _ => true
  end.

(** The cells of column [j], top to bottom. *)
Definition column_cells (df : DataFrame) (j : nat) : list cell :=
  omap (fun r => r !! j) (rows df).

(** What a column of dtype [float64] holds: floats and NaN; and a column
    of dtype [datetime64]: date/time values and NaT.  Every other column
    holds objects. *)
Definition float_cell (c : cell) : bool :=
  match c with
  | CFloat _ | CNaN => true
  | _ => false
  end.

Definition datetime_cell (c : cell) : bool :=
  match c with
  | CDatetime _ | CNaT => true
  | _ => false
  end.

(** Whether a column keeps its missing values under [where(cond, None)]:
    in a column of dtype [float64] or [datetime64] the replacement [None]
    is read as the missing value of the column itself (NaN, NaT), so
    nothing changes; only in a column of objects is [None] stored. *)
Definition keeps_missing (cells : list cell) : bool :=
  forallb float_cell cells || forallb datetime_cell cells.

Definition where_cell (df : DataFrame) (j : nat) (c : cell) : cell :=
  if keeps_missing (column_cells df j) then c
  else if notna c then c else CNone.

(** [df.where(pd.notna(df), None)], column by column. *)
Definition where_notna_None (df : DataFrame) : DataFrame :=
  {| columns := columns df;
     rows := map (imap (where_cell df)) (rows df) |}.

(** [df.to_dict(orient='records')]: one [dict(zip(columns, row))] per row. *)
Definition to_dict_records (df : DataFrame) : pyobj :=
  PList (map (fun r => PDict (dict_of (zip (columns df) (map PCell r))))
             (rows df)).

(** [df.to_dict(orient=...)]; only the records layout is modelled. *)
Definition to_dict (orient : string) (df : DataFrame) : result pyobj :=
  if String.eqb orient "records" then inr (to_dict_records df)
  else inl Unmodelled.

Record XLSXtoJSONLConverter := {
  include_sheet_name : bool;
  orient : string;
  skip_empty_sheets : bool
}.

Definition default_converter : XLSXtoJSONLConverter :=
  {| include_sheet_name := true; orient := "records";
     skip_empty_sheets := true |}.

Definition _sheet_to_record (self : XLSXtoJSONLConverter) (df : DataFrame)
    (sheet_name : string) : result (option pyobj) :=
  if df_empty df && skip_empty_sheets self then inr None
  else
    let df := where_notna_None df in
    rbind (to_dict (orient self) df) (fun data =>
      if include_sheet_name self
      then inr (Some (PDict (dict_of [("sheet_name", PCell (CStr sheet_name));
                                      ("rows", data)])))
      else inr (Some (PDict (dict_of [("rows", data)])))).

Definition workbook := list (string * DataFrame).

(** The generator [iter_sheet_records] over an opened workbook: the
    records it yields, in order; an exception ends it. *)
Fixpoint iter_sheet_records (self : XLSXtoJSONLConverter) (xls : workbook)
  : list (result pyobj) :=
  match xls with
  | [] => []
  | (sheet, df) :: rest =>
      match _sheet_to_record self df sheet with
      | inl e => [inl e]
      | inr None => iter_sheet_records self rest
      | inr (Some rec) => inr rec :: iter_sheet_records self rest
      end
  end.

(** ** Paths ([pathlib.PurePosixPath]) *)

(** A parsed path: its root ("", "/" or "//") and its components. *)
Record path := Path { root : string; parts : list string }.

#[global] Instance path_eq_dec : EqDecision path.
Proof. solve_decision. Defined.

#[global] Instance path_countable : Countable path.
Proof.
  refine (inj_countable' (fun p => (root p, parts p))
                         (fun rp => Path (fst rp) (snd rp)) _).
  by intros [].
Defined.

(** Exactly two leading slashes are kept as a root of their own. *)
Definition parse_root (s : string) : string :=
  match s with
  | String "/" (String "/" (String "/" _)) => "/"
  | String "/" (String "/" _) => "//"
  | String "/" _ => "/"
  | _ => ""
  end.

(** [Path(s)]: empty and "." components are dropped. *)
Definition parse_path (s : string) : path :=
  {| root := parse_root s;
     parts := List.filter
                (fun x => negb (String.eqb x "") && negb (String.eqb x "."))
                (split_on "/" "" s) |}.

(** [str(p)]. *)
Definition str (p : path) : string :=
  match parts p with
  | [] => if String.eqb (root p) "" then "." else root p
  | _ => root p +:+ join "/" (parts p)
  end.

(** [p.name]. *)
Definition name (p : path) : string := List.last (parts p) "".

(** The slices [s[n:]] and [s[:n]]. *)
Fixpoint string_drop (n : nat) (s : string) : string :=
  match n, s with
  | 0, _ => s
  | S n', String _ s' => string_drop n' s'
  | S _, EmptyString => ""
  end.

Fixpoint string_take (n : nat) (s : string) : string :=
  match n, s with
  | 0, _ => ""
  | S n', String a s' => String a (string_take n' s')
  | S _, EmptyString => ""
  end.

(** The extension of a file name: from its last dot on, unless that dot
    is the first or the last character. *)
Definition name_suffix (nm : string) : string :=
  match rfind "." nm with
  | Some i =>
      if Nat.ltb 0 i && Nat.ltb i (String.length nm - 1)
      then string_drop i nm else ""
  | None => ""
  end.

(** [p.suffix]. *)
Definition suffix (p : path) : string := name_suffix (name p).

(** [p.parent]. *)
Definition parent (p : path) : path :=
  {| root := root p; parts := removelast (parts p) |}.

(** [p / s]: a rooted right operand replaces the left one. *)
Definition joinpath (p : path) (s : string) : path :=
  let q := parse_path s in
  if String.eqb (root q) "" then
    {| root := root p; parts := parts p ++ parts q |}
  else q.

(** [p.with_suffix(sfx)]. *)
Definition with_suffix (p : path) (sfx : string) : result path :=
  if negb (Nat.eqb (count_char "/" sfx) 0) then inl ValueError
  else if match sfx with
          | EmptyString => false
          | String "." EmptyString => true
          | String "." _ => false
          | _ => true
          end then inl ValueError
  else
    let nm := name p in
    if String.eqb nm "" then inl ValueError
    else
      let old_suffix := suffix p in
      let nm' :=
        if String.eqb old_suffix "" then nm +:+ sfx
        else string_take (String.length nm - String.length old_suffix) nm
               +:+ sfx in
      inr {| root := root p; parts := removelast (parts p) ++ [nm'] |}.

(** ** [bytes.decode('utf-8')] *)

Definition is_cont (c : ascii) : bool :=
  let n := nat_of_ascii c in Nat.leb 128 n && Nat.leb n 191.

Definition in_range (lo hi : nat) (c : ascii) : bool :=
  let n := nat_of_ascii c in Nat.leb lo n && Nat.leb n hi.

Fixpoint utf8_valid (b : string) : bool :=
  match b with
  | EmptyString => true
  | String c0 r0 =>
      let n := nat_of_ascii c0 in
      if Nat.ltb n 128 then utf8_valid r0
      else if Nat.leb 194 n && Nat.leb n 223 then
        match r0 with
        | String c1 r1 => is_cont c1 && utf8_valid r1
        | _ => false
        end
      else if Nat.leb 224 n && Nat.leb n 239 then
        match r0 with
        | String c1 (String c2 r2) =>
            (if Nat.eqb n 224 then in_range 160 191 c1
             else if Nat.eqb n 237 then in_range 128 159 c1
             else is_cont c1)
            && is_cont c2 && utf8_valid r2
        | _ => false
        end
      else if Nat.leb 240 n && Nat.leb n 244 then
        match r0 with
        | String c1 (String c2 (String c3 r3)) =>
            (if Nat.eqb n 240 then in_range 144 191 c1
             else if Nat.eqb n 244 then in_range 128 143 c1
             else is_cont c1)
            && is_cont c2 && is_cont c3 && utf8_valid r3
        | _ => false
        end
      else false
  end.

Definition decode_utf8 (b : string) : result string :=
  if utf8_valid b then inr b else inl UnicodeDecodeError.

(** ** The file system *)

(** What a file holds: text, or the bytes of a spreadsheet container,
    carried by the workbook they decode to. *)
Inductive content :=
| Text (s : string)
| Xlsx (wb : workbook).

Inductive node :=
| Dir
| File (c : content).

(** Paths are looked up as written: no symbolic links, and ".."
    components are not resolved.  The root and the current directory
    (the paths without components) always exist. *)
Definition fs_lookup (fs : gmap path node) (p : path) : option node :=
  match parts p with
  | [] => Some Dir
  | _ => fs !! p
  end.

(** [p.exists()] and [p.is_dir()]. *)
Definition path_exists (fs : gmap path node) (p : path) : bool :=
  match fs_lookup fs p with
  | Some _ => true
  | None => false
  end.

Definition is_dir (fs : gmap path node) (p : path) : bool :=
  match fs_lookup fs p with
  | Some Dir => true
  | _ => false
  end.

(** The arguments the program accepts where a path is expected. *)
Inductive pathlike :=
| AsStr (s : string)
| AsBytes (b : string)
| AsPath (p : path).

(** [Path(x)]; pathlib rejects [bytes]. *)
Definition Path_of (x : pathlike) : result path :=
  match x with
  | AsStr s => inr (parse_path s)
  | AsPath p => inr p
  | AsBytes _ => inl TypeError
  end.

(** [str(x)]. *)
Definition str_of (x : pathlike) : string :=
  match x with
  | AsStr s => s
  | AsPath p => str p
  | AsBytes b => b
  end.

Definition _normalize_output_path (fs : gmap path node)
    (output_path : pathlike) (default_filename : string) : result path :=
  rbind (match output_path with
         | AsBytes b => rbind (decode_utf8 b) (fun s => inr (AsStr s))
         | _ => inr output_path
         end) (fun output_path =>
  rbind (Path_of output_path) (fun p =>
  if path_exists fs p && is_dir fs p then inr (joinpath p default_filename)
  else if String.eqb (suffix p) ""
          && (endswith "/" (str_of output_path)
              || Nat.eqb (count_char "." (name p)) 0)
  then inr (joinpath p default_filename)
  else inr p)).

(** ** Commands on the file system *)

(** A command runs on a file system and leaves a file system and either
    the exception it raised or its value. *)
Definition M (A : Type) : Type := gmap path node -> gmap path node * result A.

Definition ret {A} (a : A) : M A := fun fs => (fs, inr a).

Definition raise {A} (e : error) : M A := fun fs => (fs, inl e).

Definition bind {A B} (m : M A) (k : A -> M B) : M B :=
  fun fs =>
    match m fs with
    | (fs', inl e) => (fs', inl e)
    | (fs', inr a) => k a fs'
    end.

Definition lift {A} (r : result A) : M A := fun fs => (fs, r).

Definition gets {A} (f : gmap path node -> result A) : M A :=
  fun fs => (fs, f fs).

#[local] Notation "x <- m ;; k" := (bind m (fun x => k))
  (at level 100, m at next level, right associativity).
#[local] Notation "m ;;; k" := (bind m (fun _ => k))
  (at level 100, right associativity).

(** [Path(root, made ++ todo).mkdir(parents=True, exist_ok=True)], given
    that the directory of components [made] is there: each missing
    directory on the way is created; a file in the way is an error. *)
Fixpoint mkdir_from (r : string) (made todo : list string) : M unit :=
  match todo with
  | [] => ret tt
  | x :: todo' =>
      let p := {| root := r; parts := made ++ [x] |} in
      fun fs =>
        match fs !! p with
        | Some Dir => mkdir_from r (made ++ [x]) todo' fs
        | Some (File _) =>
            (fs, inl (match todo' with
                      | [] => FileExistsError
                      | _ => NotADirectoryError
                      end))
        | None => mkdir_from r (made ++ [x]) todo' (<[p := Dir]> fs)
        end
  end.

(** [p.mkdir(parents=True, exist_ok=True)]. *)
Definition mkdir_parents (p : path) : M unit := mkdir_from (root p) [] (parts p).

(** [p.open('w', encoding='utf-8')]: the file is created or truncated. *)
Definition open_w (p : path) : M unit :=
  fun fs =>
    match fs_lookup fs p with
    | Some Dir => (fs, inl IsADirectoryError)
    | _ =>
        match fs_lookup fs (parent p) with
        | Some Dir => (<[p := File (Text "")]> fs, inr tt)
        | Some (File _) => (fs, inl NotADirectoryError)
        | None => (fs, inl FileNotFoundError)
        end
    end.

(** [f_out.write(s)] on the file opened at [p]. *)
Definition write (p : path) (s : string) : M unit :=
  fun fs =>
    match fs !! p with
    | Some (File (Text t)) => (<[p := File (Text (t +:+ s))]> fs, inr tt)
    | _ => (fs, inl Unmodelled)
    end.

(** What [pd.ExcelFile] is given: a path or an in-memory buffer. *)
Inductive excel_source :=
| FromPath (p : path)
| FromBytesIO (file_bytes : content).

Definition read_container (c : content) : result workbook :=
  match c with
  | Xlsx wb => inr wb
  | Text _ => inl ValueError
  end.

(** [pd.ExcelFile(excel)]. *)
Definition ExcelFile (excel : excel_source) : M workbook :=
  match excel with
  | FromBytesIO c => lift (read_container c)
  | FromPath p =>
      gets (fun fs =>
        match fs_lookup fs p with
        | Some (File c) => read_container c
        | Some Dir => inl IsADirectoryError
        | None => inl FileNotFoundError
        end)
  end.

(** The loop of both entry points over the records of the generator:
    each record is serialised and written, then a newline. *)
Fixpoint write_records (enc : encoder) (f_out : path)
    (records : list (result pyobj)) : M unit :=
  match records with
  | [] => ret tt
  | inl e :: _ => raise e
  | inr record :: rest =>
      line <- lift (dumps enc record) ;;
      write f_out line ;;;
      write f_out nl ;;;
      write_records enc f_out rest
  end.

(** The generator starts at the first iteration of the loop: the workbook
    is opened once the output file is. *)
Definition stream_sheets (self : XLSXtoJSONLConverter) (enc : encoder)
    (excel : excel_source) (f_out : path) : M unit :=
  xls <- ExcelFile excel ;;
  write_records enc f_out (iter_sheet_records self xls).

(** ** The entry points *)

(** [convert(input_path, output_path=None)].  The [print] of the generator
    object creates a second generator that is never run. *)
Definition convert (self : XLSXtoJSONLConverter) (input_path : pathlike)
    (output_path : option pathlike) : M path :=
  input_path <- lift (Path_of input_path) ;;
  output_path <- lift (match output_path with
                       | None => rbind (with_suffix input_path ".jsonl")
                                   (fun p => inr (AsPath p))
                       | Some o => inr o
                       end) ;;
  default_filename <- lift (rbind (with_suffix input_path ".jsonl")
                              (fun p => inr (name p))) ;;
  output_path <- gets (fun fs =>
                   _normalize_output_path fs output_path default_filename) ;;
  mkdir_parents (parent output_path) ;;;
  open_w output_path ;;;
  stream_sheets self Custom (FromPath input_path) output_path ;;;
  ret output_path.

(** [convert_bytes(file_bytes, output_path)]. *)
Definition convert_bytes (self : XLSXtoJSONLConverter) (file_bytes : content)
    (output_path : pathlike) : M path :=
  let bio := FromBytesIO file_bytes in
  output_path <- gets (fun fs =>
                   _normalize_output_path fs output_path "output.jsonl") ;;
  mkdir_parents (parent output_path) ;;;
  open_w output_path ;;;
  stream_sheets self Base bio output_path ;;;
  ret output_path.

(** [convert_xlsx_bytes_to_jsonl]: a converter with the default settings. *)
Definition convert_xlsx_bytes_to_jsonl (file_bytes : content)
    (output_path : pathlike) : M path :=
  convert_bytes default_converter file_bytes output_path.

(** ** Definitions for the statements *)

(** The text [CustomJSONEncoder] writes for a cell. *)
Definition custom_cell_text (c : cell) : string :=
  match encode_native c with
  | Some s => s
  | None =>
      match c with
      | CNpInt z => int_repr z
      | _ => "null"
      end
  end.

Fixpoint sequence {A} (l : list (result A)) : result (list A) :=
  match l with
  | [] => inr []
  | r :: l' => rbind r (fun a => rbind (sequence l') (fun l'' => inr (a :: l'')))
  end.

Definition encode_item (enc : encoder) (kv : string * pyobj) : result string :=
  rbind (encode enc (snd kv))
    (fun s => inr (encode_basestring (fst kv) +:+ ": " +:+ s)).

(** The layout of one output line, written out: the dict of every row
    between braces, the rows between brackets, and around them the
    object with the sheet name (when included) and the rows. *)
Definition pair_text (kv : string * cell) : string :=
  encode_basestring (fst kv) +:+ ": " +:+ custom_cell_text (snd kv).

Definition row_text (d : list (string * cell)) : string :=
  "{" +:+ join ", " (map pair_text d) +:+ "}".

Definition rows_text (ds : list (list (string * cell))) : string :=
  "[" +:+ join ", " (map row_text ds) +:+ "]".

(** The rows of a sheet as dicts of cells, after [where]. *)
Definition sheet_rows (df : DataFrame) : list (list (string * cell)) :=
  map (fun r => dict_of (zip (columns df) r)) (rows (where_notna_None df)).

Definition sheet_text (self : XLSXtoJSONLConverter) (sheet : string)
    (df : DataFrame) : string :=
  if include_sheet_name self then
    "{" +:+ encode_basestring "sheet_name" +:+ ": "
        +:+ encode_basestring sheet +:+ ", "
        +:+ encode_basestring "rows" +:+ ": "
        +:+ rows_text (sheet_rows df) +:+ "}"
  else
    "{" +:+ encode_basestring "rows" +:+ ": "
        +:+ rows_text (sheet_rows df) +:+ "}".

Definition cells_dict (d : list (string * cell)) : list (string * pyobj) :=
  map (fun kv => (fst kv, PCell (snd kv))) d.

(** The record [_sheet_to_record] builds for a sheet it keeps. *)
Definition sheet_record (self : XLSXtoJSONLConverter) (sheet : string)
    (df : DataFrame) : pyobj :=
  let data := PList (map (fun d => PDict (cells_dict d)) (sheet_rows df)) in
  if include_sheet_name self
  then PDict [("sheet_name", PCell (CStr sheet)); ("rows", data)]
  else PDict [("rows", data)].

Definition skipped (self : XLSXtoJSONLConverter) (df : DataFrame) : bool :=
  df_empty df && skip_empty_sheets self.

(** The sheets the generator yields a record for. *)
Definition kept_sheets (self : XLSXtoJSONLConverter) (xls : workbook)
  : workbook :=
  List.filter (fun sd => negb (skipped self (snd sd))) xls.

(** The lines of a file: each followed by a newline. *)
Definition lines_text (lines : list string) : string :=
  fold_right (fun l s => l +:+ nl +:+ s) "" lines.

(** The first step of [_normalize_output_path]: bytes are decoded. *)
Definition decoded (output_path : pathlike) : result pathlike :=
  match output_path with
  | AsBytes b => rbind (decode_utf8 b) (fun s => inr (AsStr s))
  | _ => inr output_path
  end.

(** The test for a path that is read as a directory still to be made. *)
Definition directory_like (output_path : pathlike) (p : path) : bool :=
  String.eqb (suffix p) ""
  && (endswith "/" (str_of output_path)
      || Nat.eqb (count_char "." (name p)) 0).

(** What both entry points do once the target and the default file name
    are known. *)
Definition emit (self : XLSXtoJSONLConverter) (enc : encoder)
    (excel : excel_source) (target : pathlike) (default_filename : string)
  : M path :=
  bind (gets (fun fs => _normalize_output_path fs target default_filename))
    (fun output_path =>
  bind (mkdir_parents (parent output_path)) (fun _ =>
  bind (open_w output_path) (fun _ =>
  bind (stream_sheets self enc excel output_path) (fun _ =>
  ret output_path)))).

(** The lines the custom encoder writes for a workbook. *)
Definition sheet_lines (self : XLSXtoJSONLConverter) (xls : workbook)
  : list string :=
  map (fun sd => sheet_text self (fst sd) (snd sd)) (kept_sheets self xls).

(** A string between double quotes. *)
Definition quoted (s : string) : string :=
  String dquote (s +:+ String dquote "").

(** The sheets with a column and a row. *)
Definition nonempty_sheets (xls : workbook) : workbook :=
  List.filter (fun sd => negb (df_empty (snd sd))) xls.

(** The line of a sheet under the default settings. *)
Definition default_line (sd : string * DataFrame) : string :=
  "{" +:+ quoted "sheet_name" +:+ ": " +:+ encode_basestring (fst sd)
      +:+ ", " +:+ quoted "rows" +:+ ": "
      +:+ rows_text (sheet_rows (snd sd)) +:+ "}".

(** The workbook of the test suite: [Data] with two rows, [Empty]
    without any, [Meta] with one. *)
Definition sample_workbook : workbook :=
  [("Data", {| columns := ["a"; "b"];
               rows := [[CInt 1; CStr "x"]; [CInt 2; CStr "y"]] |});
   ("Empty", {| columns := []; rows := [] |});
   ("Meta", {| columns := ["col"]; rows := [[CInt 10]] |})].

Definition sample_fs : gmap path node :=
  <[parse_path "/tmp/sample.xlsx" := File (Xlsx sample_workbook)]>
    (<[parse_path "/tmp" := Dir]> ∅).

Definition sample_lines : list string :=
  ["{" +:+ quoted "sheet_name" +:+ ": " +:+ quoted "Data" +:+ ", "
       +:+ quoted "rows" +:+ ": [{" +:+ quoted "a" +:+ ": 1, "
       +:+ quoted "b" +:+ ": " +:+ quoted "x" +:+ "}, {"
       +:+ quoted "a" +:+ ": 2, " +:+ quoted "b" +:+ ": " +:+ quoted "y"
       +:+ "}]}";
   "{" +:+ quoted "sheet_name" +:+ ": " +:+ quoted "Meta" +:+ ", "
       +:+ quoted "rows" +:+ ": [{" +:+ quoted "col" +:+ ": 10}]}"].

(** A directory stands where the output file would go. *)
Definition taken_fs : gmap path node :=
  <[parse_path "/d/in.jsonl" := Dir]>
    (<[parse_path "/d/in.xlsx" := File (Xlsx sample_workbook)]>
       (<[parse_path "/d" := Dir]> ∅)).

(** A workbook with one date/time cell. *)
Definition dated_workbook : workbook :=
  [("S", {| columns := ["d"]; rows := [[CDatetime "2024-01-15T00:00:00"]] |})].

Definition dated_fs : gmap path node :=
  <[parse_path "/tmp/in.xlsx" := File (Xlsx dated_workbook)]>
    (<[parse_path "/tmp" := Dir]> ∅).

(** The cells the encoder serialises by itself, and the sheets made of
    them once missing values are replaced. *)
Definition native_cell (c : cell) : bool :=
  match encode_native c with
  | Some _ => true
  | None => false
  end.

Definition native_sheet (df : DataFrame) : bool :=
  forallb (forallb (fun kv => native_cell (snd kv))) (sheet_rows df).

(** ** The other functions of the module *)

(** [xls.parse(sheet_name)] by name: the first sheet of that name. *)
Fixpoint sheet_by_name (sheet_name : string) (xls : workbook)
  : option DataFrame :=
  match xls with
  | [] => None
  | (sheet, df) :: rest =>
      if String.eqb sheet sheet_name then Some df
      else sheet_by_name sheet_name rest
  end.

(** [pd.read_excel(filepath, sheet_name=sheet_name)]: a sheet that is not
    in the workbook is a [ValueError]. *)
Definition read_excel (filepath : string) (sheet_name : string)
  : M DataFrame :=
  bind (ExcelFile (FromPath (parse_path filepath))) (fun xls =>
  match sheet_by_name sheet_name xls with
  | Some df => ret df
  | None => raise ValueError
  end).

(** [parse_excel_to_dict_list(filepath, sheet_name)]; the default sheet
    name is [Sheet1]. *)
Definition parse_excel_to_dict_list (filepath : string) (sheet_name : string)
  : M pyobj :=
  bind (read_excel filepath sheet_name) (fun df =>
  if df_empty df then ret (PList [])
  else
    let df := where_notna_None df in
    ret (to_dict_records df)).

(** [convert_xlsx_json]: the old name of [convert_xlsx_bytes_to_jsonl]. *)
Definition convert_xlsx_json (file : content) (output_path : pathlike)
  : M path :=
  convert_xlsx_bytes_to_jsonl file output_path.

(** The value of the key [sheet_name] of a record. *)
Definition record_sheet_name (record : pyobj) : option string :=
  match record with
  | PDict d =>
      match dict_get "sheet_name" d with
      | Some (PCell (CStr s)) => Some s
      | _ => None
      end
  | _ => None
  end.

(** The value of the key [rows] of a record. *)
Definition record_rows (record : pyobj) : option (list pyobj) :=
  match record with
  | PDict d =>
      match dict_get "rows" d with
      | Some (PList data) => Some data
      | _ => None
      end
  | _ => None
  end.

(** A frame with one cell per column in every row. *)
Definition full_width (df : DataFrame) : Prop :=
  Forall (fun r => length r = length (columns df)) (rows df).

(** The steps of an entry point up to the open output file: the target
    resolves to [out], the directories above it are made (leaving
    [fs1]), and the file is opened for writing. *)
Definition opens (fs : gmap path node) (target : pathlike)
    (default_filename : string) (out : path) (fs1 : gmap path node) : Prop :=
  _normalize_output_path fs target default_filename = inr out
  /\ mkdir_parents (parent out) fs = (fs1, inr tt)
  /\ open_w out fs1 = (<[out := File (Text "")]> fs1, inr tt).

(** The sheets of a workbook that the base encoder serialises. *)
Definition native_workbook (self : XLSXtoJSONLConverter) (xls : workbook)
  : bool :=
  forallb (fun sd => native_sheet (snd sd)) (kept_sheets self xls).

(** A workbook stored under a name that already ends in [.jsonl]. *)
Definition jsonl_named_fs : gmap path node :=
  <[parse_path "/tmp/data.jsonl" := File (Xlsx sample_workbook)]>
    (<[parse_path "/tmp" := Dir]> ∅).

(** The exceptions of path handling, of the file system and of the
    spreadsheet reader, as opposed to those of the encoder. *)
Definition io_error (e : error) : bool :=
  match e with
  | ValueError | UnicodeDecodeError | FileNotFoundError | FileExistsError
  | NotADirectoryError | IsADirectoryError => true
  | TypeError | AttributeError | Unmodelled => false
  end.

(** * Properties *)

(** ** Strings *)

Lemma append_cons (x : ascii) (a b : string) :
  String x a +:+ b = String x (a +:+ b).
Proof. reflexivity. Qed.

Lemma append_nil_l (b : string) : "" +:+ b = b.
Proof. reflexivity. Qed.

Lemma append_assoc (a b c : string) : (a +:+ b) +:+ c = a +:+ (b +:+ c).
Proof.
  induction a as [|x a IH]; [done |]. rewrite !append_cons. by f_equal.
Qed.

Lemma append_nil_r (a : string) : a +:+ "" = a.
Proof.
  induction a as [|x a IH]; [done |]. rewrite append_cons. by f_equal.
Qed.

Lemma length_append (a b : string) :
  String.length (a +:+ b) = String.length a + String.length b.
Proof.
  induction a as [|x a IH]; [done |]. rewrite append_cons. cbn. by f_equal.
Qed.

Lemma count_char_append (c : ascii) (a b : string) :
  count_char c (a +:+ b) = count_char c a + count_char c b.
Proof.
  induction a as [|x a IH]; [done |].
  rewrite append_cons. cbn [count_char]. rewrite IH. lia.
Qed.

Lemma escape_char_no_newline (c : ascii) :
  count_char newline (escape_char c) = 0.
Proof. by destruct c as [[] [] [] [] [] [] [] []]; vm_compute. Qed.

Lemma escape_no_newline (s : string) : count_char newline (escape s) = 0.
Proof.
  induction s as [|c s IH]; [done |]. cbn [escape].
  by rewrite count_char_append, escape_char_no_newline, IH.
Qed.

Lemma encode_basestring_no_newline (s : string) :
  count_char newline (encode_basestring s) = 0.
Proof.
  unfold encode_basestring. cbn [count_char].
  by rewrite count_char_append, escape_no_newline.
Qed.

Lemma string_of_uint_no_newline (u : Decimal.uint) :
  count_char newline (NilEmpty.string_of_uint u) = 0.
Proof. induction u; simpl; done. Qed.

Lemma string_of_int_no_newline (i : Decimal.signed_int) :
  count_char newline (NilZero.string_of_int i) = 0.
Proof.
  assert (forall u, count_char newline (NilZero.string_of_uint u) = 0) as Hu.
  { intros u. pose proof (string_of_uint_no_newline u) as H.
    by destruct u. }
  destruct i; cbn [NilZero.string_of_int count_char]; by rewrite Hu.
Qed.

Lemma count_char_join (c : ascii) (sep : string) (l : list string) :
  count_char c sep = 0 ->
  Forall (fun s => count_char c s = 0) l ->
  count_char c (join sep l) = 0.
Proof.
  intros Hsep Hl. induction Hl as [|x l Hx Hl IH]; [done |].
  destruct l as [|y l]; [done |].
  change (join sep (x :: y :: l)) with (x +:+ sep +:+ join sep (y :: l)).
  rewrite !count_char_append, Hx, Hsep, IH. done.
Qed.

(** ** The encoders on cells *)

Lemma encode_custom_cell (c : cell) :
  encode Custom (PCell c) = inr (custom_cell_text c).
Proof. by destruct c as [| | |[]| | | | | |]. Qed.

Lemma default_returns_native (obj : pyobj) (c : cell) :
  default obj = inr c -> exists s, encode_native c = Some s.
Proof.
  unfold default, base_default. cbn.
  destruct (type_is_DateTime obj).
  - destruct (isoformat obj); cbn; [done |].
    destruct (is_np_integer obj); intros [= <-]; eauto.
  - cbn. destruct (is_np_integer obj); intros [= <-]; eauto.
Qed.

Lemma custom_cell_text_no_newline (c : cell) :
  count_char newline (custom_cell_text c) = 0.
Proof.
  destruct c as [| | |[]|z|d|s|z|iso|tn]; try done; cbn.
  - apply string_of_int_no_newline.
  - destruct d; cbn [float_repr];
      rewrite !count_char_append, !string_of_int_no_newline;
      assert (forall u, count_char newline (NilZero.string_of_uint u) = 0) as Hu
        by (intros u'; pose proof (string_of_uint_no_newline u'); by destruct u');
      by rewrite Hu.
  - apply encode_basestring_no_newline.
  - apply string_of_int_no_newline.
Qed.

(** The base encoder rejects a cell exactly when it is none of [None],
    a [bool], an [int], a [float] or a [str]. *)
Lemma encode_base_cell (c : cell) :
  encode Base (PCell c) =
    match encode_native c with
    | Some s => inr s
    | None => inl TypeError
    end.
Proof. by destruct c as [| | |[]| | | | | |]. Qed.

(** ** The encoders on lists and dicts *)

Lemma encode_PList (enc : encoder) (l : list pyobj) :
  encode enc (PList l) =
    rbind (sequence (map (encode enc) l))
      (fun ss => inr ("[" +:+ join ", " ss +:+ "]")).
Proof.
  cbn [encode]. f_equal.
  induction l as [|x l IH]; [done |]. cbn [map sequence]. by rewrite <- IH.
Qed.

Lemma encode_PDict (enc : encoder) (d : list (string * pyobj)) :
  encode enc (PDict d) =
    rbind (sequence (map (encode_item enc) d))
      (fun ss => inr ("{" +:+ join ", " ss +:+ "}")).
Proof.
  cbn [encode]. f_equal.
  induction d as [|[k v] d IH]; [done |]. cbn [map sequence].
  rewrite <- IH. unfold encode_item. cbn [fst snd].
  destruct (encode enc v); [done |]. cbn [rbind].
  by match goal with |- rbind ?x _ = rbind ?x _ => destruct x end.
Qed.

Lemma sequence_map_inr {A B} (f : A -> result B) (g : A -> B) (l : list A) :
  Forall (fun x => f x = inr (g x)) l ->
  sequence (map f l) = inr (map g l).
Proof.
  induction 1 as [|x l Hx _ IH]; [done |].
  cbn [map sequence]. by rewrite Hx, IH.
Qed.

(** ** Dicts *)

Section dict_facts.
Context {V : Type}.
Implicit Types (d kvs : list (string * V)).

Lemma dict_set_fresh k v d :
  k ∉ map fst d -> dict_set k v d = d ++ [(k, v)].
Proof.
  induction d as [|[k' v'] d IH]; [done |]. cbn [map fst dict_set].
  intros Hk. destruct (String.eqb_spec k' k) as [->|Hne].
  - exfalso. apply Hk. left.
  - rewrite IH; [done |]. intros Hin. apply Hk. by right.
Qed.

Lemma dict_of_acc_NoDup kvs d :
  NoDup (map fst d ++ map fst kvs) ->
  fold_left (fun d kv => dict_set (fst kv) (snd kv) d) kvs d = d ++ kvs.
Proof.
  revert d. induction kvs as [|[k v] kvs IH]; intros d Hnd; cbn.
  - by rewrite app_nil_r.
  - rewrite dict_set_fresh.
    + rewrite IH; [by rewrite <- app_assoc |].
      rewrite map_app. cbn. by rewrite <- app_assoc.
    + cbn in Hnd. apply NoDup_app in Hnd as (_ & Hdis & _).
      intros Hin. apply (Hdis k Hin). left.
Qed.

(** Without repeated keys [dict(pairs)] keeps every pair. *)
Lemma dict_of_NoDup kvs : NoDup (map fst kvs) -> dict_of kvs = kvs.
Proof. intros Hnd. unfold dict_of. by rewrite dict_of_acc_NoDup. Qed.

Lemma dict_get_lookup kvs j k v :
  NoDup (map fst kvs) -> kvs !! j = Some (k, v) -> dict_get k kvs = Some v.
Proof.
  revert j. induction kvs as [|[k' v'] kvs IH]; intros j Hnd Hj; [done |].
  cbn [dict_get]. cbn in Hnd. apply NoDup_cons in Hnd as [Hk' Hnd].
  destruct j as [|j]; cbn in Hj.
  - injection Hj as -> ->. by rewrite String.eqb_refl.
  - destruct (String.eqb_spec k' k) as [->|Hne]; [|by eapply IH].
    exfalso. apply Hk'. apply list_elem_of_In.
    apply (in_map fst kvs (k, v)). apply list_elem_of_In.
    apply list_elem_of_lookup. by exists j.
Qed.
End dict_facts.

Lemma dict_set_map {V W} (f : V -> W) k v (d : list (string * V)) :
  dict_set k (f v) (map (fun kv => (fst kv, f (snd kv))) d)
  = map (fun kv => (fst kv, f (snd kv))) (dict_set k v d).
Proof.
  induction d as [|[k' v'] d IH]; [done |]. cbn [map dict_set fst snd].
  destruct (String.eqb k' k); [done |]. cbn [map fst snd]. by rewrite IH.
Qed.

Lemma dict_of_map {V W} (f : V -> W) (kvs : list (string * V)) :
  dict_of (map (fun kv => (fst kv, f (snd kv))) kvs)
  = map (fun kv => (fst kv, f (snd kv))) (dict_of kvs).
Proof.
  unfold dict_of.
  change (@nil (string * W)) with (map (fun kv => (fst kv, f (snd kv))) (@nil (string * V))).
  generalize (@nil (string * V)) as d.
  induction kvs as [|[k v] kvs IH]; intros d; [done |].
  cbn [map fold_left fst snd]. by rewrite dict_set_map, IH.
Qed.

Lemma zip_map_r {A B C} (f : B -> C) (l : list A) (k : list B) :
  zip l (map f k) = map (fun kv => (fst kv, f (snd kv))) (zip l k).
Proof.
  revert k. induction l as [|a l IH]; intros [|b k]; [done..|].
  cbn. by rewrite IH.
Qed.

Lemma elem_of_zip_fst {A B} (x : A) (l : list A) (k : list B) :
  x ∈ map fst (zip l k) -> x ∈ l.
Proof.
  revert k. induction l as [|a l IH]; intros [|b k]; cbn; try by inversion 1.
  intros [->|Hin]%elem_of_cons; [left | right; eauto].
Qed.

Lemma NoDup_zip_fst {A B} (l : list A) (k : list B) :
  NoDup l -> NoDup (map fst (zip l k)).
Proof.
  intros Hnd. revert k.
  induction Hnd as [|a l Ha Hnd IH]; intros [|b k]; cbn; try constructor.
  - intros Hin. by apply Ha, (elem_of_zip_fst _ _ k).
  - apply IH.
Qed.

(** ** The text of a sheet *)

Lemma to_dict_records_cells (df : DataFrame) :
  to_dict_records df
  = PList (map (fun d => PDict (cells_dict d))
               (map (fun r => dict_of (zip (columns df) r)) (rows df))).
Proof.
  unfold to_dict_records. f_equal. rewrite map_map.
  apply map_ext. intros r. by rewrite zip_map_r, dict_of_map.
Qed.

Lemma sheet_to_record_kept (self : XLSXtoJSONLConverter) (df : DataFrame)
    (sheet : string) :
  orient self = "records" ->
  skipped self df = false ->
  _sheet_to_record self df sheet = inr (Some (sheet_record self sheet df)).
Proof.
  unfold skipped, _sheet_to_record, sheet_record, to_dict.
  intros -> ->. change (String.eqb "records" "records") with true.
  cbn [rbind]. rewrite to_dict_records_cells.
  by destruct (include_sheet_name self).
Qed.

Lemma sheet_to_record_skipped (self : XLSXtoJSONLConverter) (df : DataFrame)
    (sheet : string) :
  skipped self df = true -> _sheet_to_record self df sheet = inr None.
Proof. unfold skipped, _sheet_to_record. by intros ->. Qed.

Lemma encode_custom_row (d : list (string * cell)) :
  encode Custom (PDict (cells_dict d)) = inr (row_text d).
Proof.
  rewrite encode_PDict. unfold cells_dict. rewrite map_map.
  rewrite (sequence_map_inr _ pair_text); [done |].
  apply Forall_forall. intros [k c] _. unfold encode_item. cbn [fst snd].
  by rewrite encode_custom_cell.
Qed.

Lemma encode_custom_rows (ds : list (list (string * cell))) :
  encode Custom (PList (map (fun d => PDict (cells_dict d)) ds))
  = inr (rows_text ds).
Proof.
  rewrite encode_PList, map_map.
  rewrite (sequence_map_inr _ row_text); [done |].
  apply Forall_forall. intros d _. apply encode_custom_row.
Qed.

(** With the custom encoder every kept sheet serialises, to the layout
    above. *)
Lemma dumps_custom_sheet_record (self : XLSXtoJSONLConverter)
    (sheet : string) (df : DataFrame) :
  dumps Custom (sheet_record self sheet df) = inr (sheet_text self sheet df).
Proof.
  unfold dumps, sheet_record, sheet_text.
  destruct (include_sheet_name self); rewrite encode_PDict;
    cbn [map sequence]; unfold encode_item; cbn [fst snd];
    rewrite encode_custom_rows; cbn [rbind encode encode_native join];
    by rewrite ?append_assoc.
Qed.

Lemma row_text_no_newline (d : list (string * cell)) :
  count_char newline (row_text d) = 0.
Proof.
  unfold row_text. rewrite !count_char_append.
  rewrite count_char_join; [done..|].
  apply Forall_map, Forall_forall. intros kv _. cbv beta. unfold pair_text.
  by rewrite !count_char_append, encode_basestring_no_newline,
    custom_cell_text_no_newline.
Qed.

Lemma rows_text_no_newline (ds : list (list (string * cell))) :
  count_char newline (rows_text ds) = 0.
Proof.
  unfold rows_text. rewrite !count_char_append.
  rewrite count_char_join; [done..|].
  apply Forall_map, Forall_forall. intros d _. apply row_text_no_newline.
Qed.

Lemma sheet_text_no_newline (self : XLSXtoJSONLConverter) (sheet : string)
    (df : DataFrame) :
  count_char newline (sheet_text self sheet df) = 0.
Proof.
  unfold sheet_text. destruct (include_sheet_name self);
    by rewrite !count_char_append, !encode_basestring_no_newline,
      rows_text_no_newline.
Qed.

Lemma iter_sheet_records_kept (self : XLSXtoJSONLConverter) (xls : workbook) :
  orient self = "records" ->
  iter_sheet_records self xls
  = map (fun sd => inr (sheet_record self (fst sd) (snd sd)))
        (kept_sheets self xls).
Proof.
  intros Horient. induction xls as [|[sheet df] xls IH]; [done |].
  cbn [iter_sheet_records kept_sheets List.filter snd].
  destruct (skipped self df) eqn:Hskip; cbn [negb].
  - by rewrite sheet_to_record_skipped.
  - rewrite sheet_to_record_kept by done. cbn [map fst snd]. by rewrite IH.
Qed.

(** ** The encoder hook *)

(** C10: a cell value that the base serialiser rejects with a type error
    and that is not a NumPy integer (a datetime or Timestamp among them)
    leaves [CustomJSONEncoder.default] without a returned value, so the
    encoder of [convert] writes it as [null] and raises nothing: the line
    written for a sheet holding that one cell has [null] in its place. *)
Theorem default_falls_through_to_null (c : cell) :
  dumps Base (PCell c) = inl TypeError ->
  is_np_integer (PCell c) = false ->
  default (PCell c) = inr CNone /\
  dumps Custom (PCell c) = inr "null" /\
  forall (self : XLSXtoJSONLConverter) (sheet col : string),
    orient self = "records" ->
    include_sheet_name self = true ->
    map (fun r => rbind r (dumps Custom))
        (iter_sheet_records self
           [(sheet, {| columns := [col]; rows := [[c]] |})])
    = [inr ("{" +:+ encode_basestring "sheet_name" +:+ ": "
                +:+ encode_basestring sheet +:+ ", "
                +:+ encode_basestring "rows" +:+ ": [{"
                +:+ encode_basestring col +:+ ": null}]}")].
Proof.
  intros Hbase Hnp. unfold dumps in Hbase.
  assert (forall col,
            custom_cell_text
              (where_cell {| columns := [col]; rows := [[c]] |} 0 c) = "null")
    as Htext by (intros col; by destruct c as [| | |[]| | | | | |]).
  split; [by destruct c as [| | |[]| | | | | |] |].
  split; [by destruct c as [| | |[]| | | | | |] |].
  intros self sheet col Horient Hname.
  rewrite iter_sheet_records_kept by done.
  cbn [kept_sheets List.filter skipped df_empty columns rows andb negb snd
       fst map rbind].
  rewrite dumps_custom_sheet_record. unfold sheet_text. rewrite Hname.
  unfold sheet_rows, rows_text, row_text, pair_text.
  cbn [where_notna_None rows columns map imap zip zip_with dict_of fold_left
       dict_set fst snd join].
  rewrite Htext. by rewrite !append_assoc.
Qed.

Lemma default_falls_through_to_null_witness :
  default (PCell (CDatetime "2024-01-15T10:30:00")) = inr CNone /\
  dumps Custom (PCell (CDatetime "2024-01-15T10:30:00")) = inr "null".
Proof.
  pose proof (default_falls_through_to_null
                (CDatetime "2024-01-15T10:30:00") eq_refl eq_refl) as H.
  split; [exact (proj1 H) | exact (proj1 (proj2 H))].
Defined.

(** C4, as the code has it: a date/time cell is not written in its
    ISO-8601 form.  The class tested in [default] is [click.DateTime],
    which no cell is an instance of, and the value of [isoformat()] is
    not returned: the custom encoder writes [null], the base encoder
    raises [TypeError]. *)
Theorem datetime_cell_not_iso (iso : string) :
  default (PCell (CDatetime iso)) = inr CNone /\
  dumps Custom (PCell (CDatetime iso)) = inr "null" /\
  dumps Custom (PCell (CDatetime iso)) <> inr (encode_basestring iso) /\
  dumps Base (PCell (CDatetime iso)) = inl TypeError.
Proof.
  repeat split. unfold dumps, encode_basestring. cbn [encode encode_native
    encode_via_default encoder_default default base_default type_is_DateTime
    is_np_integer rbind].
  by intros [=].
Qed.

(** C5, as the code has it: a cell value without a JSON representation
    (neither a date/time nor a NumPy integer) raises nothing in the
    encoder of [convert]; it is written as [null].  Only the encoder of
    [convert_bytes] raises. *)
Theorem unserialisable_cell_coerced_to_null (type_name : string) :
  dumps Custom (PCell (COther type_name)) = inr "null" /\
  dumps Base (PCell (COther type_name)) = inl TypeError.
Proof. by split. Qed.

(** ** The record normaliser *)

(** C2: for a worksheet (a frame with a column wherever it has a row),
    [_sheet_to_record] returns [None] exactly when the sheet has no data
    row and [skip_empty_sheets] is set; with [skip_empty_sheets] unset a
    sheet without data rows yields exactly one record, whose [rows] field
    is the empty list, serialised to one line by either encoder. *)
Theorem sheet_to_record_None_iff (self : XLSXtoJSONLConverter)
    (df : DataFrame) (sheet : string) :
  (columns df = [] -> rows df = []) ->
  (_sheet_to_record self df sheet = inr None
   <-> rows df = [] /\ skip_empty_sheets self = true)
  /\ (skip_empty_sheets self = false -> rows df = [] ->
      orient self = "records" ->
      exists d line,
        iter_sheet_records self [(sheet, df)] = [inr (PDict d)]
        /\ dict_get "rows" d = Some (PList [])
        /\ (forall enc, dumps enc (PDict d) = inr line)
        /\ count_char newline line = 0).
Proof.
  intros Hsheet. split.
  - unfold _sheet_to_record.
    assert (df_empty df = true <-> rows df = []) as Hempty.
    { unfold df_empty. destruct (columns df), (rows df); cbn in *;
        intuition congruence. }
    assert (forall r : result pyobj,
              rbind r (fun data =>
                if include_sheet_name self
                then inr (Some (PDict (dict_of [("sheet_name",
                                                 PCell (CStr sheet));
                                                ("rows", data)])))
                else inr (Some (PDict (dict_of [("rows", data)]))))
              <> inr None) as Hsome.
    { intros [e|data]; cbn [rbind]; [done |].
      by destruct (include_sheet_name self). }
    destruct (df_empty df) eqn:He, (skip_empty_sheets self) eqn:Hs;
      cbn [andb]; split; try (intros H; by apply Hsome in H);
      intuition congruence.
  - intros Hskip Hrows Horient.
    assert (skipped self df = false) as Hkept.
    { unfold skipped. rewrite Hskip. apply andb_false_r. }
    assert (sheet_rows df = []) as Hnone.
    { unfold sheet_rows, where_notna_None. cbn [rows]. by rewrite Hrows. }
    cbn [iter_sheet_records]. rewrite sheet_to_record_kept by done.
    unfold sheet_record. rewrite Hnone. cbn [map].
    destruct (include_sheet_name self).
    + eexists _, _. split; [done |]. split; [done |]. split.
      * intros enc. unfold dumps. rewrite encode_PDict.
        cbn [map sequence]. unfold encode_item. cbn [fst snd].
        rewrite encode_PList.
        cbn [map sequence rbind encode encode_native join].
        reflexivity.
      * by rewrite !count_char_append, !encode_basestring_no_newline.
    + eexists _, _. split; [done |]. split; [done |]. split.
      * intros enc. unfold dumps. rewrite encode_PDict.
        cbn [map sequence]. unfold encode_item. cbn [fst snd].
        rewrite encode_PList.
        cbn [map sequence rbind encode encode_native join].
        reflexivity.
      * by rewrite !count_char_append, !encode_basestring_no_newline.
Qed.

Lemma sheet_to_record_None_iff_witness :
  _sheet_to_record default_converter {| columns := ["a"]; rows := [] |} "Empty"
  = inr None.
Proof.
  apply (sheet_to_record_None_iff default_converter
           {| columns := ["a"]; rows := [] |} "Empty").
  - cbn. discriminate.
  - split; reflexivity.
Defined.

(** What a record holds at row [i] under the name of column [j]: the
    cell of the sheet, after [where]. *)
Lemma sheet_record_lookup (self : XLSXtoJSONLConverter) (df : DataFrame)
    (sheet : string) (i j : nat) (r : list cell) (col : string) (c : cell) :
  orient self = "records" ->
  NoDup (columns df) ->
  rows df !! i = Some r ->
  columns df !! j = Some col ->
  r !! j = Some c ->
  exists rec data row,
    _sheet_to_record self df sheet = inr (Some (PDict rec))
    /\ dict_get "rows" rec = Some (PList data)
    /\ data !! i = Some (PDict row)
    /\ dict_get col row = Some (PCell (where_cell df j c)).
Proof.
  intros Horient Hnd Hi Hj Hc.
  assert (skipped self df = false) as Hkept.
  { unfold skipped, df_empty.
    destruct (columns df); [done |]. by destruct (rows df). }
  rewrite sheet_to_record_kept by done. unfold sheet_record.
  set (data := map (fun d => PDict (cells_dict d)) (sheet_rows df)).
  set (r' := imap (where_cell df) r).
  assert (data !! i = Some (PDict (cells_dict (dict_of (zip (columns df) r')))))
    as Hdata.
  { unfold data, sheet_rows, where_notna_None. cbn [rows columns].
    rewrite !map_map. change (map ?f ?l) with (f <$> l) at 1.
    rewrite list_lookup_fmap, Hi. done. }
  assert (r' !! j = Some (where_cell df j c)) as Hc'.
  { unfold r'. by rewrite list_lookup_imap, Hc. }
  assert (dict_get col (dict_of (zip (columns df) r'))
          = Some (where_cell df j c)) as Hget.
  { rewrite dict_of_NoDup by by apply NoDup_zip_fst.
    apply (dict_get_lookup _ j); [by apply NoDup_zip_fst |].
    by apply lookup_zip_Some. }
  assert (forall d v, dict_get col d = Some v ->
            dict_get col (cells_dict d) = Some (PCell v)) as Hcells.
  { induction d as [|[k v'] d IH]; intros v; [done |].
    cbn [cells_dict map dict_get fst snd].
    destruct (String.eqb k col); [by intros [= ->] | apply IH]. }
  destruct (include_sheet_name self); eexists _, _, _;
    (split; [reflexivity |]); (split; [reflexivity |]);
    (split; [exact Hdata |]); by apply Hcells.
Qed.

(** C3, as the code has it: a missing value is not always written as
    [null].  In a column of floats, an entirely empty column included,
    [where] leaves NaN in place: the record holds NaN under the column
    name and both encoders write the token [NaN].  Only in a column of
    objects does the record hold [None]. *)
Theorem float_column_keeps_NaN (sheet col : string) (d : Decimal.decimal) :
  _sheet_to_record default_converter
    {| columns := [col]; rows := [[CFloat d]; [CNaN]] |} sheet
  = inr (Some (PDict [("sheet_name", PCell (CStr sheet));
                      ("rows", PList [PDict [(col, PCell (CFloat d))];
                                      PDict [(col, PCell CNaN)]])]))
  /\ _sheet_to_record default_converter
       {| columns := [col]; rows := [[CNaN]] |} sheet
     = inr (Some (PDict [("sheet_name", PCell (CStr sheet));
                         ("rows", PList [PDict [(col, PCell CNaN)]])]))
  /\ (forall enc, dumps enc (PCell CNaN) = inr "NaN")
  /\ map (fun r => rbind r (dumps Custom))
         (iter_sheet_records default_converter
            [(sheet, {| columns := [col]; rows := [[CNaN]] |})])
     = [inr ("{" +:+ encode_basestring "sheet_name" +:+ ": "
                 +:+ encode_basestring sheet +:+ ", "
                 +:+ encode_basestring "rows" +:+ ": [{"
                 +:+ encode_basestring col +:+ ": NaN}]}")]
  /\ _sheet_to_record default_converter
       {| columns := [col]; rows := [[CStr "x"]; [CNaN]] |} sheet
     = inr (Some (PDict [("sheet_name", PCell (CStr sheet));
                         ("rows", PList [PDict [(col, PCell (CStr "x"))];
                                         PDict [(col, PCell CNone)]])])).
Proof.
  split; [done |]. split; [done |]. split; [by intros [] |].
  split; [|done].
  rewrite iter_sheet_records_kept by done.
  cbn [kept_sheets List.filter skipped df_empty columns rows andb negb snd
       fst map rbind].
  rewrite dumps_custom_sheet_record. unfold sheet_text.
  cbn [include_sheet_name default_converter].
  unfold sheet_rows, rows_text, row_text, pair_text.
  cbn [where_notna_None rows columns map imap zip zip_with dict_of fold_left
       dict_set fst snd join].
  change (where_cell {| columns := [col]; rows := [[CNaN]] |} 0 CNaN)
    with CNaN.
  cbn [custom_cell_text encode_native]. by rewrite !append_assoc.
Qed.

(** ** Running commands *)

Lemma bind_ok {A B} (m : M A) (k : A -> M B) fs fs' (b : B) :
  bind m k fs = (fs', inr b) ->
  exists fs1 a, m fs = (fs1, inr a) /\ k a fs1 = (fs', inr b).
Proof.
  unfold bind. destruct (m fs) as [fs1 [e|a]]; [done |]. eauto.
Qed.

Lemma lift_ok {A} (r : result A) fs fs' (a : A) :
  lift r fs = (fs', inr a) -> fs' = fs /\ r = inr a.
Proof. unfold lift. by intros [= <- <-]. Qed.

Lemma gets_ok {A} (f : gmap path node -> result A) fs fs' (a : A) :
  gets f fs = (fs', inr a) -> fs' = fs /\ f fs = inr a.
Proof. unfold gets. by intros [= <- <-]. Qed.

(** ** Creating directories *)

Lemma mkdir_from_preserves r made todo fs q n :
  fs !! q = Some n -> (mkdir_from r made todo fs).1 !! q = Some n.
Proof.
  revert made fs. induction todo as [|x todo IH]; intros made fs Hq; [done |].
  cbn [mkdir_from].
  destruct (fs !! {| root := r; parts := made ++ [x] |}) as [[|c]|] eqn:Hp.
  - by apply IH.
  - done.
  - apply IH. rewrite lookup_insert_ne; [done |]. intros <-. congruence.
Qed.

Lemma mkdir_from_dirs r made todo fs fs' k :
  mkdir_from r made todo fs = (fs', inr tt) ->
  0 < k <= length todo ->
  fs' !! {| root := r; parts := made ++ take k todo |} = Some Dir.
Proof.
  revert made fs k. induction todo as [|x todo IH]; intros made fs k Hrun Hk;
    [cbn in Hk; lia |].
  cbn [mkdir_from] in Hrun. cbn [length] in Hk.
  destruct k as [|k]; [lia |]. cbn [take].
  replace (made ++ x :: take k todo) with ((made ++ [x]) ++ take k todo)
    by by rewrite <- app_assoc.
  destruct (fs !! {| root := r; parts := made ++ [x] |}) as [[|c]|] eqn:Hp;
    [| done |].
  - destruct k as [|k].
    + rewrite take_0, app_nil_r.
      pose proof (mkdir_from_preserves r (made ++ [x]) todo fs _ _ Hp) as H.
      by rewrite Hrun in H.
    + eapply IH; [done | lia].
  - destruct k as [|k].
    + rewrite take_0, app_nil_r.
      pose proof (mkdir_from_preserves r (made ++ [x]) todo
                    (<[{| root := r; parts := made ++ [x] |} := Dir]> fs)
                    {| root := r; parts := made ++ [x] |} Dir) as H.
      rewrite Hrun in H. apply H. apply lookup_insert_eq.
    + eapply IH; [done | lia].
Qed.

Lemma mkdir_from_noop r made todo fs :
  (forall k, 0 < k <= length todo ->
             fs !! {| root := r; parts := made ++ take k todo |} = Some Dir) ->
  mkdir_from r made todo fs = (fs, inr tt).
Proof.
  revert made. induction todo as [|x todo IH]; intros made Hdirs; [done |].
  cbn [mkdir_from].
  pose proof (Hdirs 1 ltac:(cbn; lia)) as H1.
  cbn [take] in H1. rewrite take_0 in H1. rewrite H1.
  apply IH. intros k Hk.
  specialize (Hdirs (S k) ltac:(cbn; lia)). cbn [take] in Hdirs.
  by rewrite <- app_assoc.
Qed.

(** ** Opening and writing *)

Lemma open_w_ok p fs fs' :
  open_w p fs = (fs', inr tt) ->
  fs' = <[p := File (Text "")]> fs
  /\ fs_lookup fs p <> Some Dir
  /\ fs_lookup fs (parent p) = Some Dir.
Proof.
  unfold open_w.
  destruct (fs_lookup fs p) as [[|c]|] eqn:Hp; [done |..];
    destruct (fs_lookup fs (parent p)) as [[|c']|]; try done;
    by intros [= <-].
Qed.

Lemma fs_lookup_not_Dir fs p :
  fs_lookup fs p <> Some Dir -> parts p <> [] /\ fs_lookup fs p = fs !! p.
Proof. unfold fs_lookup. by destruct (parts p). Qed.

Lemma write_ok p s t fs :
  fs !! p = Some (File (Text t)) ->
  write p s fs = (<[p := File (Text (t +:+ s))]> fs, inr tt).
Proof. unfold write. by intros ->. Qed.

(** The loop only ever changes the text of the open file. *)
Lemma write_records_state enc f_out records fs t fs' r :
  fs !! f_out = Some (File (Text t)) ->
  write_records enc f_out records fs = (fs', r) ->
  exists t', fs' = <[f_out := File (Text t')]> fs.
Proof.
  revert fs t. induction records as [|[e|record] records IH]; intros fs t Hf.
  - intros [= <- <-]. exists t. by rewrite insert_id.
  - intros [= <- <-]. exists t. by rewrite insert_id.
  - cbn [write_records]. unfold bind at 1, lift.
    destruct (dumps enc record) as [e|line].
    { intros [= <- <-]. exists t. by rewrite insert_id. }
    unfold bind at 1. rewrite (write_ok _ _ t) by done.
    unfold bind at 1. rewrite (write_ok _ _ (t +:+ line))
      by apply lookup_insert_eq.
    rewrite insert_insert_eq. intros Hrun.
    eapply IH in Hrun as [t' ->]; [|apply lookup_insert_eq].
    exists t'. by rewrite insert_insert_eq.
Qed.

Lemma write_records_ok enc f_out (records : list pyobj) (lines : list string)
    fs t :
  Forall2 (fun record line => dumps enc record = inr line) records lines ->
  fs !! f_out = Some (File (Text t)) ->
  write_records enc f_out (map inr records) fs
  = (<[f_out := File (Text (t +:+ lines_text lines))]> fs, inr tt).
Proof.
  intros Hall. revert fs t.
  induction Hall as [|record line records lines Hline _ IH]; intros fs t Hf.
  - cbn. by rewrite append_nil_r, insert_id.
  - cbn [map write_records lines_text fold_right]. unfold bind at 1, lift.
    rewrite Hline.
    unfold bind at 1. rewrite (write_ok _ _ t) by done.
    unfold bind at 1. rewrite (write_ok _ _ (t +:+ line))
      by apply lookup_insert_eq.
    rewrite insert_insert_eq.
    rewrite (IH _ (t +:+ line +:+ nl)) by (rewrite append_assoc; apply lookup_insert_eq).
    rewrite insert_insert_eq. by rewrite !append_assoc.
Qed.

(** ** Resolving the output path *)

Lemma is_dir_exists fs p : path_exists fs p && is_dir fs p = is_dir fs p.
Proof. unfold path_exists, is_dir. by destruct (fs_lookup fs p) as [[]|]. Qed.

Lemma normalize_unfold fs output_path default_filename :
  _normalize_output_path fs output_path default_filename
  = rbind (decoded output_path) (fun x =>
    rbind (Path_of x) (fun p =>
      inr (if is_dir fs p then joinpath p default_filename
           else if directory_like x p then joinpath p default_filename
           else p))).
Proof.
  unfold _normalize_output_path. fold (decoded output_path).
  destruct (decoded output_path) as [e|x]; [done |]. cbn [rbind].
  destruct (Path_of x) as [e|p]; [done |]. cbn [rbind].
  rewrite is_dir_exists. fold (directory_like x p).
  by destruct (is_dir fs p), (directory_like x p).
Qed.

(** The resolved path does not change when directories are added and the
    resolved path itself becomes a file. *)
Lemma normalize_stable fs fs' output_path default_filename out :
  _normalize_output_path fs output_path default_filename = inr out ->
  (forall p, is_dir fs p = true -> is_dir fs' p = true) ->
  is_dir fs' out = false ->
  _normalize_output_path fs' output_path default_filename = inr out.
Proof.
  rewrite !normalize_unfold.
  destruct (decoded output_path) as [e|x]; [done |]. cbn [rbind].
  destruct (Path_of x) as [e|p]; [done |]. cbn [rbind].
  intros Hout Hdirs Hfile.
  destruct (is_dir fs p) eqn:Hp.
  - by rewrite (Hdirs p Hp).
  - destruct (directory_like x p).
    + by destruct (is_dir fs' p).
    + injection Hout as ->. by rewrite Hfile.
Qed.

(** ** One conversion *)

Lemma convert_bytes_emit self file_bytes output_path :
  convert_bytes self file_bytes output_path
  = emit self Base (FromBytesIO file_bytes) output_path "output.jsonl".
Proof. reflexivity. Qed.

Lemma convert_emit self input_path output_path :
  convert self input_path output_path
  = bind (lift (Path_of input_path)) (fun ip =>
    bind (lift (match output_path with
                | None => rbind (with_suffix ip ".jsonl")
                            (fun p => inr (AsPath p))
                | Some o => inr o
                end)) (fun target =>
    bind (lift (rbind (with_suffix ip ".jsonl") (fun p => inr (name p))))
      (fun default_filename =>
    emit self Custom (FromPath ip) target default_filename))).
Proof. reflexivity. Qed.

Lemma ExcelFile_state excel fs fs' r :
  ExcelFile excel fs = (fs', r) -> fs' = fs.
Proof. destruct excel; cbn; unfold lift, gets; by intros [= <- _]. Qed.

(** The steps of a conversion that returns. *)
Lemma emit_ok self enc excel target default_filename fs fs' out :
  emit self enc excel target default_filename fs = (fs', inr out) ->
  exists fs1 xls,
    _normalize_output_path fs target default_filename = inr out
    /\ mkdir_parents (parent out) fs = (fs1, inr tt)
    /\ open_w out fs1 = (<[out := File (Text "")]> fs1, inr tt)
    /\ ExcelFile excel (<[out := File (Text "")]> fs1)
       = (<[out := File (Text "")]> fs1, inr xls)
    /\ write_records enc out (iter_sheet_records self xls)
         (<[out := File (Text "")]> fs1) = (fs', inr tt).
Proof.
  unfold emit. intros Hrun.
  apply bind_ok in Hrun as (fs0 & p & Hn & Hrun).
  apply gets_ok in Hn as [-> Hn].
  apply bind_ok in Hrun as (fs1 & [] & Hm & Hrun).
  apply bind_ok in Hrun as (fs2 & [] & Ho & Hrun).
  apply bind_ok in Hrun as (fs3 & [] & Hs & Hrun).
  unfold ret in Hrun. injection Hrun as <- <-.
  pose proof (open_w_ok _ _ _ Ho) as (-> & _ & _).
  unfold stream_sheets in Hs.
  apply bind_ok in Hs as (fs4 & xls & He & Hw).
  pose proof (ExcelFile_state _ _ _ _ He) as ->.
  by exists fs1, xls.
Qed.

Lemma parent_ne p : parts p <> [] -> parent p <> p.
Proof.
  intros Hp Heq. apply (f_equal parts) in Heq. cbn in Heq.
  apply (f_equal length) in Heq.
  rewrite removelast_firstn_len, length_take in Heq.
  destruct (parts p); [done |]. cbn in Heq. lia.
Qed.

Lemma prefix_ne_parent p k :
  parts p <> [] ->
  {| root := root p; parts := [] ++ take k (parts (parent p)) |} <> p.
Proof.
  intros Hp Heq. apply (f_equal parts) in Heq. cbn in Heq.
  apply (f_equal length) in Heq.
  rewrite length_take, removelast_firstn_len, length_take in Heq.
  destruct (parts p); [done |]. cbn in Heq. lia.
Qed.

(** Running a conversion that returned once more, on the file system it
    left, returns the same path and leaves the file system as it is. *)
Lemma emit_idempotent self enc excel target default_filename fs fs' out :
  emit self enc excel target default_filename fs = (fs', inr out) ->
  emit self enc excel target default_filename fs' = (fs', inr out).
Proof.
  intros Hrun.
  apply emit_ok in Hrun as (fs1 & xls & Hn & Hm & Ho & He & Hw).
  pose proof (open_w_ok _ _ _ Ho) as (_ & Hnd & Hpar).
  pose proof (fs_lookup_not_Dir _ _ Hnd) as [Hparts Hlook].
  pose proof (write_records_state _ _ _ _ "" _ _ (lookup_insert_eq _ _ _) Hw)
    as [t Hfs'].
  rewrite insert_insert_eq in Hfs'.
  assert (fs' !! out = Some (File (Text t))) as Hout
    by (rewrite Hfs'; apply lookup_insert_eq).
  assert (is_dir fs' out = false) as Hfile.
  { unfold is_dir, fs_lookup. destruct (parts out); [done |]. by rewrite Hout. }
  assert (forall p, is_dir fs p = true -> is_dir fs' p = true) as Hdirs.
  { intros p. unfold is_dir, fs_lookup.
    destruct (parts p) eqn:Hpp; [done |].
    destruct (fs !! p) as [[|c]|] eqn:Hp; try done. intros _.
    pose proof (mkdir_from_preserves (root (parent out)) []
                  (parts (parent out)) fs p Dir Hp) as Hp1.
    fold (mkdir_parents (parent out)) in Hp1. rewrite Hm in Hp1. cbn in Hp1.
    rewrite Hfs', lookup_insert_ne, Hp1; [done |].
    intros <-. apply Hnd. by rewrite Hlook. }
  unfold emit.
  unfold bind at 1, gets. rewrite (normalize_stable _ _ _ _ _ Hn Hdirs Hfile).
  assert (mkdir_parents (parent out) fs' = (fs', inr tt)) as Hm'.
  { apply mkdir_from_noop. intros k Hk. rewrite Hfs'.
    rewrite lookup_insert_ne by (apply not_eq_sym, (prefix_ne_parent out k Hparts)).
    by apply (mkdir_from_dirs _ _ _ _ _ _ Hm). }
  unfold bind at 1. rewrite Hm'.
  assert (open_w out fs' = (<[out := File (Text "")]> fs1, inr tt)) as Ho'.
  { unfold open_w. unfold fs_lookup at 1.
    destruct (parts out) eqn:Hpo; [done |]. rewrite Hout.
    replace (fs_lookup fs' (parent out)) with (Some Dir).
    - by rewrite Hfs', insert_insert_eq.
    - rewrite <- Hpar. unfold fs_lookup.
      destruct (parts (parent out)); [done |].
      rewrite Hfs', lookup_insert_ne; [done |].
      apply not_eq_sym, parent_ne. by rewrite Hpo. }
  unfold bind at 1. rewrite Ho'.
  unfold bind at 1, stream_sheets. unfold bind at 1. rewrite He, Hw. done.
Qed.

(** C9: a conversion that returned, run once more on the file system it
    left (same input, same configuration), returns the same path and
    leaves every file as it is, the output file included: the second run
    truncates the output file and writes the same bytes again.  This holds
    for [convert] and for [convert_bytes]. *)
Theorem conversion_rerun_identical (self : XLSXtoJSONLConverter) :
  (forall input_path output_path fs fs' out,
     convert self input_path output_path fs = (fs', inr out) ->
     convert self input_path output_path fs' = (fs', inr out))
  /\ (forall file_bytes output_path fs fs' out,
        convert_bytes self file_bytes output_path fs = (fs', inr out) ->
        convert_bytes self file_bytes output_path fs' = (fs', inr out)).
Proof.
  split.
  - intros input_path output_path fs fs' out. rewrite convert_emit.
    intros Hrun.
    apply bind_ok in Hrun as (fs0 & ip & [-> Hip]%lift_ok & Hrun).
    apply bind_ok in Hrun as (fs0 & target & [-> Ht]%lift_ok & Hrun).
    apply bind_ok in Hrun as (fs0 & dn & [-> Hdn]%lift_ok & Hrun).
    apply emit_idempotent in Hrun.
    unfold bind at 1, lift. rewrite Hip.
    unfold bind at 1. rewrite Ht.
    unfold bind at 1. by rewrite Hdn.
  - intros file_bytes output_path fs fs' out. rewrite convert_bytes_emit.
    apply emit_idempotent.
Qed.

(** ** The rules of [_normalize_output_path] *)

(** C7: bytes are decoded as UTF-8 first; a target that is an existing
    directory resolves to that directory joined with the default file
    name; so does a target without extension that ends in a separator or
    whose last component has no dot; a target with an extension that is
    not an existing directory is used as it is.  [convert_bytes] resolves
    its target with the default file name [output.jsonl], so bytes that
    spell a path without extension ending in a separator resolve to the
    decoded directory joined with [output.jsonl]. *)
Theorem normalize_output_path_rules (fs : gmap path node)
    (default_filename : string) :
  (forall b s,
     decode_utf8 b = inr s ->
     _normalize_output_path fs (AsBytes b) default_filename
     = _normalize_output_path fs (AsStr s) default_filename)
  /\ (forall x p,
        Path_of x = inr p -> is_dir fs p = true ->
        _normalize_output_path fs x default_filename
        = inr (joinpath p default_filename))
  /\ (forall x p,
        Path_of x = inr p -> suffix p = "" ->
        endswith "/" (str_of x) = true \/ count_char "." (name p) = 0 ->
        _normalize_output_path fs x default_filename
        = inr (joinpath p default_filename))
  /\ (forall x p,
        Path_of x = inr p -> suffix p <> "" -> is_dir fs p = false ->
        _normalize_output_path fs x default_filename = inr p)
  /\ (forall self file_bytes x fs' out,
        convert_bytes self file_bytes x fs = (fs', inr out) ->
        _normalize_output_path fs x "output.jsonl" = inr out)
  /\ (forall b s,
        decode_utf8 b = inr s -> endswith "/" s = true ->
        suffix (parse_path s) = "" ->
        _normalize_output_path fs (AsBytes b) "output.jsonl"
        = inr (joinpath (parse_path s) "output.jsonl")).
Proof.
  assert (forall x p dn,
            Path_of x = inr p -> suffix p = "" ->
            endswith "/" (str_of x) = true \/ count_char "." (name p) = 0 ->
            _normalize_output_path fs x dn = inr (joinpath p dn)) as Hlike.
  { intros x p dn Hp Hsfx Hdir. rewrite normalize_unfold.
    assert (decoded x = inr x) as ->
      by (destruct x; [done | discriminate Hp | done]).
    cbn [rbind]. rewrite Hp. cbn [rbind].
    assert (directory_like x p = true) as ->.
    { unfold directory_like. rewrite Hsfx. cbn [String.eqb andb].
      destruct Hdir as [-> | ->]; [done |]. apply orb_true_r. }
    by destruct (is_dir fs p). }
  assert (forall b s dn,
            decode_utf8 b = inr s ->
            _normalize_output_path fs (AsBytes b) dn
            = _normalize_output_path fs (AsStr s) dn) as Hbytes.
  { intros b s dn Hb. rewrite !normalize_unfold. cbn [decoded].
    by rewrite Hb. }
  repeat split.
  - intros b s. apply Hbytes.
  - intros x p Hp Hdir. rewrite normalize_unfold.
    assert (decoded x = inr x) as ->
      by (destruct x; [done | discriminate Hp | done]).
    cbn [rbind]. rewrite Hp. cbn [rbind]. by rewrite Hdir.
  - intros x p. apply Hlike.
  - intros x p Hp Hsfx Hdir. rewrite normalize_unfold.
    assert (decoded x = inr x) as ->
      by (destruct x; [done | discriminate Hp | done]).
    cbn [rbind]. rewrite Hp. cbn [rbind]. rewrite Hdir.
    unfold directory_like.
    destruct (String.eqb_spec (suffix p) "") as [Heq|_]; [done |]. done.
  - intros self file_bytes x fs' out. rewrite convert_bytes_emit.
    intros Hrun. by apply emit_ok in Hrun as (? & ? & Hn & _).
  - intros b s Hb Hsep Hsfx. rewrite (Hbytes b s) by done.
    apply Hlike; [done | done | by left].
Qed.

Lemma normalize_output_path_rules_witness :
  _normalize_output_path ∅ (AsBytes "/tmp/bytes_dir/") "output.jsonl"
  = inr (parse_path "/tmp/bytes_dir/output.jsonl")
  /\ _normalize_output_path ∅ (AsStr "/tmp/out/report.jsonl") "in.jsonl"
     = inr (parse_path "/tmp/out/report.jsonl")
  /\ _normalize_output_path (<[parse_path "/tmp/out" := Dir]> ∅)
       (AsStr "/tmp/out") "in.jsonl"
     = inr (parse_path "/tmp/out/in.jsonl").
Proof.
  destruct (normalize_output_path_rules ∅ "output.jsonl")
    as (_ & _ & _ & _ & _ & Hbytes).
  destruct (normalize_output_path_rules ∅ "in.jsonl")
    as (_ & _ & _ & Hfile & _).
  destruct (normalize_output_path_rules (<[parse_path "/tmp/out" := Dir]> ∅)
              "in.jsonl") as (_ & Hdir & _).
  split; [|split].
  - apply (Hbytes "/tmp/bytes_dir/" "/tmp/bytes_dir/"); reflexivity.
  - apply (Hfile (AsStr "/tmp/out/report.jsonl")); [reflexivity | | reflexivity].
    vm_compute. discriminate.
  - rewrite (Hdir (AsStr "/tmp/out") (parse_path "/tmp/out") eq_refl);
      [reflexivity | by vm_compute].
Defined.

(** ** The lines of a conversion *)

Lemma write_custom_sheets self xls f_out fs t :
  orient self = "records" ->
  fs !! f_out = Some (File (Text t)) ->
  write_records Custom f_out (iter_sheet_records self xls) fs
  = (<[f_out := File (Text (t +:+ lines_text (sheet_lines self xls)))]> fs,
     inr tt).
Proof.
  intros Horient Hf. rewrite iter_sheet_records_kept by done.
  rewrite <- (map_map (fun sd => sheet_record self (fst sd) (snd sd)) inr).
  apply write_records_ok; [|done].
  unfold sheet_lines. induction (kept_sheets self xls) as [|sd l IH];
    cbn [map]; constructor; [apply dumps_custom_sheet_record | apply IH].
Qed.

Lemma count_newline_lines (lines : list string) :
  Forall (fun l => count_char newline l = 0) lines ->
  count_char newline (lines_text lines) = length lines.
Proof.
  induction 1 as [|l lines Hl _ IH]; [done |].
  cbn [lines_text fold_right length]. fold (lines_text lines).
  rewrite !count_char_append, Hl, IH. done.
Qed.

Lemma sheet_lines_no_newline self xls :
  Forall (fun l => count_char newline l = 0) (sheet_lines self xls).
Proof.
  unfold sheet_lines. apply Forall_map, Forall_forall. intros sd _.
  apply sheet_text_no_newline.
Qed.

(** The workbook read once the output file is open is the one the input
    path held before, unless the output file is the input file. *)
Lemma input_after_open self enc ip target dn fs fs' out wb :
  emit self enc (FromPath ip) target dn fs = (fs', inr out) ->
  fs_lookup fs ip = Some (File (Xlsx wb)) ->
  exists fs1,
    mkdir_parents (parent out) fs = (fs1, inr tt)
    /\ out <> ip
    /\ write_records enc out (iter_sheet_records self wb)
         (<[out := File (Text "")]> fs1) = (fs', inr tt).
Proof.
  intros Hrun Hin.
  apply emit_ok in Hrun as (fs1 & xls & Hn & Hm & Ho & He & Hw).
  exists fs1. split; [done |].
  assert (fs !! ip = Some (File (Xlsx wb))) as Hin'.
  { unfold fs_lookup in Hin. by destruct (parts ip). }
  assert (fs1 !! ip = Some (File (Xlsx wb))) as Hin1.
  { pose proof (mkdir_from_preserves (root (parent out)) []
                  (parts (parent out)) fs ip _ Hin') as H.
    fold (mkdir_parents (parent out)) in H. by rewrite Hm in H. }
  cbn [ExcelFile] in He. unfold gets in He. injection He as He.
  unfold fs_lookup in He, Hin. destruct (parts ip) eqn:Hparts; [done |].
  destruct (decide (out = ip)) as [->|Hne].
  - by rewrite lookup_insert_eq in He.
  - rewrite lookup_insert_ne, Hin1 in He by done. cbn in He.
    injection He as <-. done.
Qed.

(** ** Replacing the extension *)

Lemma rfind_dot_jsonl (stem : string) :
  rfind "." (stem +:+ ".jsonl") = Some (String.length stem).
Proof.
  induction stem as [|a stem IH]; [done |].
  rewrite append_cons. cbn [rfind String.length]. by rewrite IH.
Qed.

Lemma string_drop_append (stem s : string) :
  string_drop (String.length stem) (stem +:+ s) = s.
Proof. induction stem as [|a stem IH]; [done |]. by rewrite append_cons. Qed.

Lemma length_string_drop (i : nat) (s : string) :
  String.length (string_drop i s) = String.length s - i.
Proof.
  revert s. induction i as [|i IH]; intros s; cbn [string_drop]; [lia |].
  destruct s as [|a s]; [done |]. cbn [String.length]. by rewrite IH.
Qed.

Lemma name_suffix_jsonl (stem : string) :
  stem <> "" -> name_suffix (stem +:+ ".jsonl") = ".jsonl".
Proof.
  intros Hstem. unfold name_suffix.
  rewrite rfind_dot_jsonl, length_append.
  assert (0 < String.length stem) as Hlen by (destruct stem; [done | cbn; lia]).
  assert (Nat.ltb 0 (String.length stem)
          && Nat.ltb (String.length stem)
               (String.length stem + String.length ".jsonl" - 1) = true) as ->.
  { apply andb_true_iff. split; apply Nat.ltb_lt; cbn; lia. }
  apply string_drop_append.
Qed.

(** The part of a file name before its extension is not empty. *)
Lemma stem_nonempty (nm : string) :
  nm <> "" -> name_suffix nm <> "" ->
  string_take (String.length nm - String.length (name_suffix nm)) nm <> "".
Proof.
  intros Hnm. unfold name_suffix.
  destruct (rfind "." nm) as [i|]; [|done].
  destruct (Nat.ltb 0 i && Nat.ltb i (String.length nm - 1)) eqn:Hi; [|done].
  intros _. apply andb_true_iff in Hi as [Hi1%Nat.ltb_lt Hi2%Nat.ltb_lt].
  rewrite length_string_drop.
  replace (String.length nm - (String.length nm - i)) with i by lia.
  destruct i as [|i]; [lia |]. by destruct nm.
Qed.

Lemma with_suffix_jsonl (p out : path) :
  with_suffix p ".jsonl" = inr out ->
  parent out = parent p /\ suffix out = ".jsonl" /\ parts out <> [].
Proof.
  unfold with_suffix.
  change (negb (Nat.eqb (count_char "/" ".jsonl") 0)) with false. cbv iota.
  destruct (String.eqb_spec (name p) "") as [|Hnm]; [done |].
  intros [= <-]. unfold parent, suffix, name. cbn [root parts].
  rewrite removelast_last, last_last. split; [done |].
  split; [|by destruct (removelast (parts p))].
  fold (name p). fold (suffix p).
  destruct (String.eqb_spec (suffix p) "") as [|Hsfx];
    apply name_suffix_jsonl; [done |].
  by apply stem_nonempty.
Qed.

(** With the output path left out, [convert] on a workbook file whose
    directory exists writes the lines of the workbook next to it, under
    the input name with the extension [.jsonl], unless a directory has
    that name. *)
Lemma convert_omitted_returns self input_path ip wb out fs :
  orient self = "records" ->
  Path_of input_path = inr ip ->
  fs_lookup fs ip = Some (File (Xlsx wb)) ->
  (forall k, 0 < k < length (parts ip) ->
     fs !! {| root := root ip; parts := take k (parts ip) |} = Some Dir) ->
  with_suffix ip ".jsonl" = inr out ->
  is_dir fs out = false ->
  out <> ip ->
  convert self input_path None fs
  = (<[out := File (Text (lines_text (sheet_lines self wb)))]> fs, inr out).
Proof.
  intros Horient Hip Hin Hanc Hsfx Hdir Hne.
  pose proof (with_suffix_jsonl _ _ Hsfx) as (Hparent & Hext & Hparts).
  rewrite convert_emit.
  unfold bind at 1, lift. rewrite Hip.
  unfold bind at 1. rewrite Hsfx. cbn [rbind].
  unfold bind at 1. unfold emit.
  unfold bind at 1, gets. rewrite normalize_unfold. cbn [decoded Path_of rbind].
  rewrite Hdir. unfold directory_like. rewrite Hext.
  change (String.eqb ".jsonl" "") with false. cbn [andb].
  assert (parts ip <> []) as Hipparts.
  { unfold fs_lookup in Hin. by destruct (parts ip). }
  assert (mkdir_parents (parent out) fs = (fs, inr tt)) as Hm.
  { rewrite Hparent. apply mkdir_from_noop. intros k Hk. cbn [parent parts root] in *.
    rewrite removelast_firstn_len, length_take in Hk.
    rewrite app_nil_l, firstn_removelast by lia. apply Hanc. lia. }
  unfold bind at 1. rewrite Hm.
  assert (open_w out fs = (<[out := File (Text "")]> fs, inr tt)) as Ho.
  { unfold open_w. unfold is_dir in Hdir.
    replace (fs_lookup fs (parent out)) with (Some Dir).
    - by destruct (fs_lookup fs out) as [[|c]|].
    - rewrite Hparent. unfold fs_lookup, parent. cbn [parts].
      destruct (removelast (parts ip)) eqn:Hrl; [done |]. rewrite <- Hrl.
      rewrite removelast_firstn_len. symmetry. apply Hanc.
      rewrite removelast_firstn_len in Hrl.
      destruct (parts ip) as [|a [|b l']]; cbn in *; [done | done | lia]. }
  unfold bind at 1. rewrite Ho.
  unfold bind at 1, stream_sheets. unfold bind at 1.
  cbn [ExcelFile]. unfold gets.
  assert (fs_lookup (<[out := File (Text "")]> fs) ip
          = Some (File (Xlsx wb))) as ->.
  { unfold fs_lookup in *. destruct (parts ip); [done |].
    by rewrite lookup_insert_ne. }
  cbn [read_container].
  rewrite (write_custom_sheets _ _ _ _ "") by (done || apply lookup_insert_eq).
  rewrite insert_insert_eq. done.
Qed.

(** ** The entry points *)

Lemma sheet_lines_default (xls : workbook) :
  sheet_lines default_converter xls = map default_line (nonempty_sheets xls).
Proof.
  unfold sheet_lines, kept_sheets, nonempty_sheets, skipped.
  cbn [skip_empty_sheets default_converter].
  induction xls as [|sd xls IH]; [done |]. cbn [List.filter].
  rewrite andb_true_r. destruct (df_empty (snd sd)); cbn [negb map];
    by rewrite IH.
Qed.

(** C1: under the default settings the file [convert] leaves holds one
    line per sheet that is not skipped, in the order of the workbook,
    each ended by a newline and free of any other, each an object with
    the keys [sheet_name] and [rows]; with the output path left out the
    conversion of a workbook file returns.  For the workbook with the
    sheets Data (two rows), Empty (none) and Meta (one row) there are
    exactly two records, Data then Meta, the first row of Data being
    a = 1, b = "x", and the file holds their two lines. *)
Theorem convert_default_lines (input_path : pathlike)
    (output_path : option pathlike) (ip : path) (wb : workbook)
    (fs : gmap path node) :
  Path_of input_path = inr ip ->
  fs_lookup fs ip = Some (File (Xlsx wb)) ->
  (forall fs' out,
     convert default_converter input_path output_path fs = (fs', inr out) ->
     fs' !! out
     = Some (File (Text (lines_text (map default_line (nonempty_sheets wb))))))
  /\ (forall out,
        (forall k, 0 < k < length (parts ip) ->
           fs !! {| root := root ip; parts := take k (parts ip) |} = Some Dir) ->
        with_suffix ip ".jsonl" = inr out ->
        is_dir fs out = false ->
        out <> ip ->
        convert default_converter input_path None fs
        = (<[out := File (Text (lines_text
                                  (map default_line (nonempty_sheets wb))))]> fs,
           inr out))
  /\ Forall (fun l => count_char newline l = 0)
       (map default_line (nonempty_sheets wb))
  /\ count_char newline (lines_text (map default_line (nonempty_sheets wb)))
     = length (nonempty_sheets wb)
  /\ iter_sheet_records default_converter sample_workbook
     = [inr (PDict [("sheet_name", PCell (CStr "Data"));
                    ("rows", PList [PDict [("a", PCell (CInt 1));
                                           ("b", PCell (CStr "x"))];
                                    PDict [("a", PCell (CInt 2));
                                           ("b", PCell (CStr "y"))]])]);
        inr (PDict [("sheet_name", PCell (CStr "Meta"));
                    ("rows", PList [PDict [("col", PCell (CInt 10))]])])]
  /\ convert default_converter (AsStr "/tmp/sample.xlsx") None sample_fs
     = (<[parse_path "/tmp/sample.jsonl" :=
            File (Text (lines_text sample_lines))]> sample_fs,
        inr (parse_path "/tmp/sample.jsonl")).
Proof.
  intros Hip Hin.
  pose proof (sheet_lines_no_newline default_converter wb) as Hnl.
  rewrite sheet_lines_default in Hnl.
  split; [|split; [|split; [|split; [|split]]]].
  - intros fs' out. rewrite convert_emit. intros Hrun.
    apply bind_ok in Hrun as (fs0 & ip' & [-> Hip']%lift_ok & Hrun).
    rewrite Hip in Hip'. injection Hip' as <-.
    apply bind_ok in Hrun as (fs0 & target & [-> Ht]%lift_ok & Hrun).
    apply bind_ok in Hrun as (fs0 & dn & [-> Hdn]%lift_ok & Hrun).
    eapply input_after_open in Hrun as (fs1 & _ & _ & Hw); [|done].
    rewrite (write_custom_sheets _ _ _ _ "") in Hw
      by (done || apply lookup_insert_eq).
    injection Hw as <-. rewrite sheet_lines_default.
    apply lookup_insert_eq.
  - intros out Hanc Hsfx Hdir Hne. rewrite <- sheet_lines_default.
    by apply (convert_omitted_returns _ _ ip).
  - done.
  - rewrite count_newline_lines by done. apply length_map.
  - reflexivity.
  - rewrite (convert_omitted_returns default_converter _
               (parse_path "/tmp/sample.xlsx") sample_workbook
               (parse_path "/tmp/sample.jsonl")); try reflexivity.
    + intros k Hk. cbn in Hk.
      assert (k = 1) as -> by lia. reflexivity.
    + discriminate.
Qed.

Lemma convert_default_lines_witness :
  count_char newline
    (lines_text (map default_line (nonempty_sheets sample_workbook)))
  = length (nonempty_sheets sample_workbook).
Proof.
  apply (convert_default_lines (AsStr "/tmp/sample.xlsx") None
           (parse_path "/tmp/sample.xlsx") sample_workbook sample_fs);
    reflexivity.
Defined.

(** C8 does not hold as stated: with a directory at the input path with
    the extension [.jsonl], [convert] without output path returns the
    file of that name inside the directory. *)
Lemma convert_omitted_directory_counterexample :
  with_suffix (parse_path "/d/in.xlsx") ".jsonl"
  = inr (parse_path "/d/in.jsonl")
  /\ snd (convert default_converter (AsStr "/d/in.xlsx") None taken_fs)
     = inr (parse_path "/d/in.jsonl/in.jsonl")
  /\ parse_path "/d/in.jsonl/in.jsonl" <> parse_path "/d/in.jsonl".
Proof. split; [|split]; [by vm_compute | by vm_compute | discriminate]. Qed.

(** C8, amended: with the output path left out, the path [convert]
    resolves and returns is the input path with its extension replaced
    by [.jsonl], unless a directory exists at that path, in which case it
    is that directory joined with the same file name; and on a workbook
    file whose directory exists [convert] does return it. *)
Theorem convert_omitted_path (self : XLSXtoJSONLConverter)
    (input_path : pathlike) (ip : path) (fs : gmap path node) :
  Path_of input_path = inr ip ->
  (forall fs' out,
     convert self input_path None fs = (fs', inr out) ->
     exists q,
       with_suffix ip ".jsonl" = inr q
       /\ out = if is_dir fs q then joinpath q (name q) else q)
  /\ (forall wb q,
        orient self = "records" ->
        fs_lookup fs ip = Some (File (Xlsx wb)) ->
        (forall k, 0 < k < length (parts ip) ->
           fs !! {| root := root ip; parts := take k (parts ip) |} = Some Dir) ->
        with_suffix ip ".jsonl" = inr q ->
        is_dir fs q = false ->
        q <> ip ->
        exists fs', convert self input_path None fs = (fs', inr q)).
Proof.
  intros Hip. split.
  - intros fs' out. rewrite convert_emit. intros Hrun.
    apply bind_ok in Hrun as (fs0 & ip' & [-> Hip']%lift_ok & Hrun).
    rewrite Hip in Hip'. injection Hip' as <-.
    apply bind_ok in Hrun as (fs0 & target & [-> Ht]%lift_ok & Hrun).
    apply bind_ok in Hrun as (fs0 & dn & [-> Hdn]%lift_ok & Hrun).
    destruct (with_suffix ip ".jsonl") as [e|q] eqn:Hsfx; [done |].
    cbn [rbind] in Ht, Hdn. injection Ht as <-. injection Hdn as <-.
    exists q. split; [done |].
    apply emit_ok in Hrun as (_ & _ & Hn & _).
    rewrite normalize_unfold in Hn. cbn [decoded Path_of rbind] in Hn.
    pose proof (with_suffix_jsonl _ _ Hsfx) as (_ & Hext & _).
    unfold directory_like in Hn. rewrite Hext in Hn.
    change (String.eqb ".jsonl" "") with false in Hn. cbn [andb] in Hn.
    by injection Hn as <-.
  - intros wb q Horient Hin Hanc Hsfx Hdir Hne. eexists.
    by apply (convert_omitted_returns _ _ ip wb).
Qed.

Lemma convert_omitted_path_witness :
  exists fs',
    convert default_converter (AsStr "/tmp/sample.xlsx") None sample_fs
    = (fs', inr (parse_path "/tmp/sample.jsonl")).
Proof.
  apply (proj2 (convert_omitted_path default_converter
                  (AsStr "/tmp/sample.xlsx") (parse_path "/tmp/sample.xlsx")
                  sample_fs eq_refl) sample_workbook); try reflexivity.
  - intros k Hk. cbn in Hk. assert (k = 1) as -> by lia. reflexivity.
  - discriminate.
Defined.

(** ** The two encoders *)

Lemma encode_native_row enc (d : list (string * cell)) :
  forallb (fun kv => native_cell (snd kv)) d = true ->
  encode enc (PDict (cells_dict d)) = inr (row_text d).
Proof.
  intros Hd. rewrite encode_PDict. unfold cells_dict. rewrite map_map.
  rewrite (sequence_map_inr _ pair_text); [done |].
  apply Forall_forall. intros [k c] Hin%list_elem_of_In.
  apply (proj1 (forallb_forall _ _) Hd) in Hin.
  unfold encode_item, pair_text, custom_cell_text, native_cell in *.
  cbn [fst snd encode] in *. by destruct (encode_native c).
Qed.

Lemma dumps_native_sheet_record enc self sheet df :
  native_sheet df = true ->
  dumps enc (sheet_record self sheet df) = inr (sheet_text self sheet df).
Proof.
  intros Hdf. unfold dumps, sheet_record, sheet_text.
  assert (encode enc (PList (map (fun d => PDict (cells_dict d))
                                 (sheet_rows df)))
          = inr (rows_text (sheet_rows df))) as Hrows.
  { rewrite encode_PList, map_map.
    rewrite (sequence_map_inr _ row_text); [done |].
    apply Forall_forall. intros d Hin%list_elem_of_In.
    apply encode_native_row.
    by apply (proj1 (forallb_forall _ _) Hdf). }
  destruct (include_sheet_name self); rewrite encode_PDict;
    cbn [map sequence]; unfold encode_item; cbn [fst snd];
    rewrite Hrows; cbn [rbind encode encode_native join];
    by rewrite ?append_assoc.
Qed.

(** The loop depends on the encoder through [dumps] only. *)
Lemma write_records_ext enc1 enc2 f_out (records : list (result pyobj)) :
  Forall (fun r => match r with
                   | inr record => dumps enc1 record = dumps enc2 record
                   | inl _ => True
                   end) records ->
  forall fs, write_records enc1 f_out records fs
             = write_records enc2 f_out records fs.
Proof.
  induction 1 as [|[e|record] records Hr _ IH]; intros fs.
  1-2: done.
  cbn [write_records]. unfold bind, lift. rewrite Hr.
  destruct (dumps enc2 record) as [e|line]; [done |].
  destruct (write f_out line fs) as [fs1 [e|[]]]; [done |].
  destruct (write f_out nl fs1) as [fs2 [e|[]]]; [done |].
  apply IH.
Qed.

(** On a workbook whose kept sheets hold only values the encoder
    serialises by itself, a conversion writes the same with either
    encoder: the entry points part ways on the other values only. *)
Lemma encoders_agree_on_native_workbook self excel target dn
    (native : forall fs xls r,
        ExcelFile excel fs = (fs, inr xls) ->
        r ∈ kept_sheets self xls -> native_sheet (snd r) = true) :
  orient self = "records" ->
  forall fs, emit self Base excel target dn fs
             = emit self Custom excel target dn fs.
Proof.
  intros Horient fs. unfold emit, stream_sheets, bind.
  destruct (gets _ fs) as [fs0 [e|out]]; [done |].
  destruct (mkdir_parents _ fs0) as [fs1 [e|[]]]; [done |].
  destruct (open_w out fs1) as [fs2 [e|[]]]; [done |].
  destruct (ExcelFile excel fs2) as [fs3 [e|xls]] eqn:He; [done |].
  pose proof (ExcelFile_state _ _ _ _ He) as ->.
  rewrite (write_records_ext Base Custom); [done |].
  rewrite iter_sheet_records_kept by done.
  apply Forall_map, Forall_forall. intros sd Hsd.
  rewrite !dumps_native_sheet_record; [done | by eapply native..].
Qed.

(** C6, as the code has it: the two entry points do not write the same
    file for the same workbook.  [convert] serialises with
    [CustomJSONEncoder], [convert_bytes] with the base encoder: on a
    workbook with a date/time cell the first writes a line with [null]
    and returns, the second raises [TypeError] and leaves the output
    file empty. *)
Theorem entry_points_differ_on_datetime :
  snd (convert default_converter (AsStr "/tmp/in.xlsx")
         (Some (AsStr "/tmp/out.jsonl")) dated_fs)
  = inr (parse_path "/tmp/out.jsonl")
  /\ fst (convert default_converter (AsStr "/tmp/in.xlsx")
            (Some (AsStr "/tmp/out.jsonl")) dated_fs)
       !! parse_path "/tmp/out.jsonl"
     = Some (File (Text ("{" +:+ quoted "sheet_name" +:+ ": " +:+ quoted "S"
                             +:+ ", " +:+ quoted "rows" +:+ ": [{"
                             +:+ quoted "d" +:+ ": null}]}" +:+ nl)))
  /\ snd (convert_bytes default_converter (Xlsx dated_workbook)
            (AsStr "/tmp/out.jsonl") dated_fs)
     = inl TypeError
  /\ fst (convert_bytes default_converter (Xlsx dated_workbook)
            (AsStr "/tmp/out.jsonl") dated_fs)
       !! parse_path "/tmp/out.jsonl"
     = Some (File (Text "")).
Proof. repeat split; vm_compute; reflexivity. Qed.

Lemma conversion_rerun_identical_witness :
  convert default_converter (AsStr "/tmp/sample.xlsx") None
    (<[parse_path "/tmp/sample.jsonl" :=
         File (Text (lines_text (sheet_lines default_converter
                                   sample_workbook)))]> sample_fs)
  = (<[parse_path "/tmp/sample.jsonl" :=
         File (Text (lines_text (sheet_lines default_converter
                                   sample_workbook)))]> sample_fs,
     inr (parse_path "/tmp/sample.jsonl")).
Proof.
  apply (proj1 (conversion_rerun_identical default_converter)
           (AsStr "/tmp/sample.xlsx") None sample_fs).
  apply (convert_omitted_returns default_converter _
           (parse_path "/tmp/sample.xlsx")); try reflexivity.
  - intros k Hk. cbn in Hk. assert (k = 1) as -> by lia. reflexivity.
  - discriminate.
Defined.

(** * Further properties *)

(** ** The records of a sheet *)

Lemma record_rows_sheet_record self sheet df :
  record_rows (sheet_record self sheet df)
  = Some (map (fun d => PDict (cells_dict d)) (sheet_rows df)).
Proof. unfold sheet_record. by destruct (include_sheet_name self). Qed.

(** X1: the record of a sheet that is kept has one entry under [rows]
    per data row of the sheet, each of them a dict, whatever the cells
    hold. *)
Theorem sheet_record_row_count (self : XLSXtoJSONLConverter)
    (df : DataFrame) (sheet : string) :
  orient self = "records" ->
  skipped self df = false ->
  exists record data,
    _sheet_to_record self df sheet = inr (Some record)
    /\ record_rows record = Some data
    /\ length data = length (rows df)
    /\ Forall (fun row => exists d, row = PDict d) data.
Proof.
  intros Horient Hkept. eexists _, _.
  split; [by apply sheet_to_record_kept |].
  split; [apply record_rows_sheet_record |].
  unfold sheet_rows, where_notna_None. cbn [rows columns].
  split; [by rewrite !length_map |].
  apply Forall_map, Forall_forall. intros d _. by eexists.
Qed.

Lemma sheet_record_row_count_witness :
  exists record data,
    _sheet_to_record default_converter
      {| columns := ["a"; "b"];
         rows := [[CInt 1; CStr "x"]; [CInt 2; CStr "y"]] |} "Data"
    = inr (Some record)
    /\ record_rows record = Some data
    /\ length data = 2.
Proof.
  destruct (sheet_record_row_count default_converter
              {| columns := ["a"; "b"];
                 rows := [[CInt 1; CStr "x"]; [CInt 2; CStr "y"]] |} "Data"
              eq_refl eq_refl) as (record & data & H1 & H2 & H3 & _).
  by exists record, data.
Defined.

(** X2: in a sheet with distinct column names and one cell per column in
    every row, the keys of every row dict are the column names of the
    sheet, in the order of the columns. *)
Theorem sheet_record_keys_are_columns (self : XLSXtoJSONLConverter)
    (df : DataFrame) (sheet : string) (data : list pyobj) (record : pyobj) :
  orient self = "records" ->
  NoDup (columns df) ->
  full_width df ->
  _sheet_to_record self df sheet = inr (Some record) ->
  record_rows record = Some data ->
  Forall (fun row => exists d, row = PDict d /\ map fst d = columns df) data.
Proof.
  intros Horient Hnd Hfull Hrec Hrows.
  assert (skipped self df = false) as Hkept.
  { destruct (skipped self df) eqn:Hs; [|done].
    by rewrite sheet_to_record_skipped in Hrec. }
  rewrite sheet_to_record_kept in Hrec by done.
  injection Hrec as <-. rewrite record_rows_sheet_record in Hrows.
  injection Hrows as <-.
  unfold sheet_rows, where_notna_None. cbn [rows columns].
  rewrite !map_map. apply Forall_map.
  unfold full_width in Hfull.
  eapply Forall_impl; [exact Hfull |]. intros r Hr. cbv beta in *.
  eexists. split; [reflexivity |].
  unfold cells_dict. rewrite map_map. cbn [fst].
  rewrite dict_of_NoDup by by apply NoDup_zip_fst.
  change (map fst ?l) with (l.*1). apply fst_zip.
  rewrite length_imap. lia.
Qed.

Lemma sheet_record_keys_are_columns_witness :
  Forall (fun row => exists d, row = PDict d /\ map fst d = ["a"; "b"])
    [PDict [("a", PCell (CInt 1)); ("b", PCell CNaN)]].
Proof.
  apply (sheet_record_keys_are_columns default_converter
           {| columns := ["a"; "b"]; rows := [[CInt 1; CNaN]] |} "Data"
           _ (PDict [("sheet_name", PCell (CStr "Data"));
                     ("rows", PList [PDict [("a", PCell (CInt 1));
                                            ("b", PCell CNaN)]])]));
    try reflexivity.
  - apply NoDup_cons. split; [by intros [=]%list_elem_of_singleton |].
    apply NoDup_singleton.
  - by repeat constructor.
Defined.

(** X3: in a sheet with distinct column names, the record holds at row
    [i], under the name of column [j], the cell of the sheet at that
    place, except that a missing value (NaN, NaT or None) is replaced by
    [None] when the column holds anything besides floats and NaN, or
    besides date/times and NaT.  In a column of floats NaN is kept, in a
    column of date/times NaT is kept. *)
Theorem sheet_record_cell_value (self : XLSXtoJSONLConverter)
    (df : DataFrame) (sheet : string) (i j : nat) (r : list cell)
    (col : string) (c : cell) :
  orient self = "records" ->
  NoDup (columns df) ->
  rows df !! i = Some r ->
  columns df !! j = Some col ->
  r !! j = Some c ->
  exists record data row,
    _sheet_to_record self df sheet = inr (Some record)
    /\ record_rows record = Some data
    /\ data !! i = Some (PDict row)
    /\ dict_get col row
       = Some (PCell (if forallb float_cell (column_cells df j)
                         || forallb datetime_cell (column_cells df j)
                      then c
                      else if notna c then c else CNone)).
Proof.
  intros Horient Hnd Hi Hj Hc.
  destruct (sheet_record_lookup self df sheet i j r col c
              Horient Hnd Hi Hj Hc) as (rec & data & row & H1 & H2 & H3 & H4).
  exists (PDict rec), data, row. split; [done |].
  split; [unfold record_rows; by rewrite H2 |]. by split.
Qed.

Lemma sheet_record_cell_value_witness :
  exists record data row,
    _sheet_to_record default_converter
      {| columns := ["a"; "b"];
         rows := [[CFloat (Decimal.Decimal (Decimal.Pos (Decimal.D1 Decimal.Nil))
                                           (Decimal.D5 Decimal.Nil));
                   CStr "x"];
                  [CNaN; CNaN]] |} "Data"
    = inr (Some record)
    /\ record_rows record = Some data
    /\ data !! 1 = Some (PDict row)
    /\ dict_get "b" row = Some (PCell CNone).
Proof.
  apply (sheet_record_cell_value default_converter
           {| columns := ["a"; "b"];
              rows := [[CFloat (Decimal.Decimal
                                  (Decimal.Pos (Decimal.D1 Decimal.Nil))
                                  (Decimal.D5 Decimal.Nil));
                        CStr "x"];
                       [CNaN; CNaN]] |}
           "Data" 1 1 [CNaN; CNaN] "b" CNaN); try reflexivity.
  cbn. apply NoDup_cons. split; [by intros [=]%list_elem_of_singleton |].
  apply NoDup_singleton.
Defined.

(** ** The records of a workbook *)

(** X4: with the sheet name included, the generator yields one record
    per sheet that is not skipped, carrying the names of these sheets in
    the order of the workbook; with [skip_empty_sheets] unset it yields
    one record for every sheet. *)
Theorem iter_sheet_records_names (self : XLSXtoJSONLConverter)
    (xls : workbook) :
  orient self = "records" ->
  include_sheet_name self = true ->
  exists records,
    iter_sheet_records self xls = map inr records
    /\ map record_sheet_name records
       = map (fun sd => Some (fst sd))
           (List.filter (fun sd => negb (df_empty (snd sd)
                                         && skip_empty_sheets self)) xls)
    /\ (skip_empty_sheets self = false -> length records = length xls).
Proof.
  intros Horient Hname.
  exists (map (fun sd => sheet_record self (fst sd) (snd sd))
              (kept_sheets self xls)).
  split; [by rewrite iter_sheet_records_kept, map_map |].
  split.
  - rewrite map_map. apply map_ext. intros [sheet df].
    unfold record_sheet_name, sheet_record. by rewrite Hname.
  - intros Hskip. rewrite length_map. unfold kept_sheets, skipped.
    rewrite forallb_filter_id; [done |].
    apply forallb_forall. intros sd _. by rewrite Hskip, andb_false_r.
Qed.

Lemma iter_sheet_records_names_witness :
  exists records,
    iter_sheet_records default_converter sample_workbook = map inr records
    /\ map record_sheet_name records = [Some "Data"; Some "Meta"].
Proof.
  destruct (iter_sheet_records_names default_converter sample_workbook
              eq_refl eq_refl) as (records & H1 & H2 & _).
  exists records. split; [exact H1 | exact H2].
Defined.

(** ** After the output file is open *)

Lemma emit_after_open self enc excel target dn fs out fs1 :
  opens fs target dn out fs1 ->
  emit self enc excel target dn fs
  = match stream_sheets self enc excel out (<[out := File (Text "")]> fs1) with
    | (fs', inl e) => (fs', inl e)
    | (fs', inr _) => (fs', inr out)
    end.
Proof.
  intros (Hn & Hm & Ho). unfold emit, bind, gets, ret.
  by rewrite Hn, Hm, Ho.
Qed.

Lemma emit_ok_opens self enc excel target dn fs fs' out :
  emit self enc excel target dn fs = (fs', inr out) ->
  exists fs1, opens fs target dn out fs1.
Proof.
  intros Hrun. apply emit_ok in Hrun as (fs1 & xls & Hn & Hm & Ho & _).
  by exists fs1.
Qed.

Lemma opens_output_fresh fs target dn out fs1 :
  opens fs target dn out fs1 ->
  parts out <> [] /\ fs1 !! out <> Some Dir.
Proof.
  intros (_ & _ & Ho). apply open_w_ok in Ho as (_ & Hnd & _).
  pose proof (fs_lookup_not_Dir _ _ Hnd) as [Hparts Hlook].
  split; [done |]. by rewrite <- Hlook.
Qed.

Lemma opens_preserves fs target dn out fs1 q n :
  opens fs target dn out fs1 -> fs !! q = Some n -> fs1 !! q = Some n.
Proof.
  intros (_ & Hm & _) Hq.
  pose proof (mkdir_from_preserves (root (parent out)) []
                (parts (parent out)) fs q n Hq) as H.
  fold (mkdir_parents (parent out)) in H. by rewrite Hm in H.
Qed.

(** X5: for every configuration with the records layout, once the
    output file of [convert] is open and the input path holds a workbook
    (not the output file itself), [convert] returns the output path and
    the file holds one line per sheet that is not skipped, each free of
    newlines, in the layout of the configuration (with or without the
    sheet name); nothing a cell holds makes it fail. *)
Theorem convert_writes_sheet_lines (self : XLSXtoJSONLConverter)
    (input_path : pathlike) (output_path : option pathlike)
    (ip q out : path) (wb : workbook) (fs fs1 : gmap path node) :
  orient self = "records" ->
  Path_of input_path = inr ip ->
  with_suffix ip ".jsonl" = inr q ->
  opens fs (match output_path with None => AsPath q | Some o => o end)
    (name q) out fs1 ->
  fs_lookup fs ip = Some (File (Xlsx wb)) ->
  out <> ip ->
  convert self input_path output_path fs
  = (<[out := File (Text (lines_text (sheet_lines self wb)))]> fs1, inr out)
  /\ count_char newline (lines_text (sheet_lines self wb))
     = length (kept_sheets self wb).
Proof.
  intros Horient Hip Hq Hopens Hin Hne. split.
  - rewrite convert_emit. unfold bind at 1, lift. rewrite Hip, !Hq.
    cbn [rbind].
    unfold bind at 1. unfold bind at 1.
    assert (emit self Custom (FromPath ip)
              (match output_path with None => AsPath q | Some o => o end)
              (name q) fs
            = (<[out := File (Text (lines_text (sheet_lines self wb)))]> fs1,
               inr out)) as Hemit; [|by destruct output_path].
    rewrite (emit_after_open _ _ _ _ _ _ _ _ Hopens).
    unfold stream_sheets, bind. cbn [ExcelFile]. unfold gets.
    assert (fs_lookup (<[out := File (Text "")]> fs1) ip
            = Some (File (Xlsx wb))) as ->.
    { unfold fs_lookup in *. destruct (parts ip); [done |].
      rewrite lookup_insert_ne by done.
      by apply (opens_preserves _ _ _ _ _ _ _ Hopens). }
    cbn [read_container].
    rewrite (write_custom_sheets _ _ _ _ "") by (done || apply lookup_insert_eq).
    by rewrite insert_insert_eq.
  - rewrite count_newline_lines by apply sheet_lines_no_newline.
    apply length_map.
Qed.

(** A target with an extension, under directories that exist, opens as
    it is. *)
Lemma opens_file_target fs target default_filename p :
  Path_of target = inr p ->
  suffix p <> "" ->
  fs_lookup fs p <> Some Dir ->
  (forall k, 0 < k < length (parts p) ->
     fs !! {| root := root p; parts := take k (parts p) |} = Some Dir) ->
  opens fs target default_filename p fs.
Proof.
  intros Hp Hsfx Hnd Hanc.
  pose proof (fs_lookup_not_Dir _ _ Hnd) as [Hparts Hlook].
  assert (is_dir fs p = false) as Hdir.
  { unfold is_dir. by destruct (fs_lookup fs p) as [[|c]|]. }
  split; [|split].
  - rewrite normalize_unfold.
    assert (decoded target = inr target) as ->
      by (destruct target; [done | discriminate Hp | done]).
    cbn [rbind]. rewrite Hp. cbn [rbind]. rewrite Hdir.
    unfold directory_like.
    by destruct (String.eqb_spec (suffix p) "").
  - apply mkdir_from_noop. intros k Hk. cbn [parent parts root] in *.
    rewrite removelast_firstn_len, length_take in Hk.
    rewrite app_nil_l, firstn_removelast by lia. apply Hanc. lia.
  - unfold open_w.
    replace (fs_lookup fs (parent p)) with (Some Dir).
    + by destruct (fs_lookup fs p) as [[|c]|].
    + unfold fs_lookup, parent. cbn [parts].
      destruct (removelast (parts p)) eqn:Hrl; [done |]. rewrite <- Hrl.
      rewrite removelast_firstn_len. symmetry. apply Hanc.
      rewrite removelast_firstn_len in Hrl.
      destruct (parts p) as [|a [|b l']]; cbn in *; [done | done | lia].
Qed.

Lemma opens_sample_jsonl (dn : string) :
  opens sample_fs (AsStr "/tmp/sample.jsonl") dn
    (parse_path "/tmp/sample.jsonl") sample_fs.
Proof.
  apply opens_file_target; [reflexivity | by vm_compute | by vm_compute |].
  intros k Hk. cbn in Hk. assert (k = 1) as -> by lia. reflexivity.
Qed.

Lemma convert_writes_sheet_lines_witness :
  convert default_converter (AsStr "/tmp/sample.xlsx")
    (Some (AsStr "/tmp/sample.jsonl")) sample_fs
  = (<[parse_path "/tmp/sample.jsonl" :=
         File (Text (lines_text (sheet_lines default_converter
                                   sample_workbook)))]> sample_fs,
     inr (parse_path "/tmp/sample.jsonl"))
  /\ count_char newline
       (lines_text (sheet_lines default_converter sample_workbook))
     = length (kept_sheets default_converter sample_workbook).
Proof.
  apply (convert_writes_sheet_lines default_converter
           (AsStr "/tmp/sample.xlsx") (Some (AsStr "/tmp/sample.jsonl"))
           (parse_path "/tmp/sample.xlsx") (parse_path "/tmp/sample.jsonl"));
    try reflexivity.
  - apply opens_sample_jsonl.
  - discriminate.
Defined.

(** ** The base encoder on sheets *)

Lemma sequence_map_cases {A B} (f : A -> result B) (g : A -> B)
    (ok : A -> bool) (e0 : error) (l : list A) :
  (forall x, f x = if ok x then inr (g x) else inl e0) ->
  sequence (map f l) = if forallb ok l then inr (map g l) else inl e0.
Proof.
  intros Hf. induction l as [|x l IH]; [done |].
  cbn [map sequence forallb]. rewrite Hf, IH.
  by destruct (ok x), (forallb ok l).
Qed.

Lemma encode_base_row (d : list (string * cell)) :
  encode Base (PDict (cells_dict d))
  = if forallb (fun kv => native_cell (snd kv)) d
    then inr (row_text d) else inl TypeError.
Proof.
  rewrite encode_PDict. unfold cells_dict. rewrite map_map.
  rewrite (sequence_map_cases _ pair_text
             (fun kv => native_cell (snd kv)) TypeError).
  - by destruct (forallb _ d).
  - intros [k c]. unfold encode_item, pair_text, custom_cell_text, native_cell.
    cbn [fst snd]. rewrite encode_base_cell. by destruct (encode_native c).
Qed.

Lemma dumps_base_sheet_record self sheet df :
  dumps Base (sheet_record self sheet df)
  = if native_sheet df then inr (sheet_text self sheet df)
    else inl TypeError.
Proof.
  unfold dumps, sheet_record, sheet_text, native_sheet.
  assert (encode Base (PList (map (fun d => PDict (cells_dict d))
                                  (sheet_rows df)))
          = if forallb (forallb (fun kv => native_cell (snd kv)))
                 (sheet_rows df)
            then inr (rows_text (sheet_rows df)) else inl TypeError) as Hrows.
  { rewrite encode_PList, map_map.
    rewrite (sequence_map_cases _ row_text
               (forallb (fun kv => native_cell (snd kv))) TypeError).
    - by destruct (forallb _ (sheet_rows df)).
    - intros d. apply encode_base_row. }
  destruct (include_sheet_name self); rewrite encode_PDict;
    cbn [map sequence]; unfold encode_item; cbn [fst snd];
    rewrite Hrows; destruct (forallb _ (sheet_rows df));
    cbn [rbind encode encode_native join]; by rewrite ?append_assoc.
Qed.

(** The loop stops at the first record that does not serialise; the
    lines before it are written. *)
Lemma write_records_partial enc f_out (records : list pyobj)
    (lines : list string) (bad : pyobj) (e : error)
    (rest : list (result pyobj)) fs t :
  Forall2 (fun record line => dumps enc record = inr line) records lines ->
  dumps enc bad = inl e ->
  fs !! f_out = Some (File (Text t)) ->
  write_records enc f_out (map inr records ++ inr bad :: rest) fs
  = (<[f_out := File (Text (t +:+ lines_text lines))]> fs, inl e).
Proof.
  intros Hall Hbad. revert fs t.
  induction Hall as [|record line records lines Hline _ IH]; intros fs t Hf.
  - cbn [map app write_records lines_text fold_right]. unfold bind, lift.
    rewrite Hbad. by rewrite append_nil_r, insert_id.
  - cbn [map app write_records lines_text fold_right]. unfold bind at 1, lift.
    rewrite Hline.
    unfold bind at 1. rewrite (write_ok _ _ t) by done.
    unfold bind at 1. rewrite (write_ok _ _ (t +:+ line))
      by apply lookup_insert_eq.
    rewrite insert_insert_eq.
    rewrite (IH _ (t +:+ line +:+ nl))
      by (rewrite append_assoc; apply lookup_insert_eq).
    rewrite insert_insert_eq. by rewrite !append_assoc.
Qed.

Lemma native_records self (xls : workbook) :
  native_workbook self xls = true ->
  Forall2 (fun record line => dumps Base record = inr line)
    (map (fun sd => sheet_record self (fst sd) (snd sd)) (kept_sheets self xls))
    (sheet_lines self xls).
Proof.
  unfold native_workbook, sheet_lines.
  induction (kept_sheets self xls) as [|sd l IH]; cbn [forallb map];
    [constructor |].
  intros [Hsd Hl]%andb_true_iff. constructor; [|by apply IH].
  by rewrite dumps_base_sheet_record, Hsd.
Qed.

Lemma kept_sheets_app self (xls1 xls2 : workbook) :
  kept_sheets self (xls1 ++ xls2) = kept_sheets self xls1 ++ kept_sheets self xls2.
Proof. unfold kept_sheets. apply List.filter_app. Qed.

(** X6: on a workbook whose kept sheets hold only values the base
    encoder serialises ([None], booleans, integers, floats, strings),
    [convert_bytes], once its output file is open, returns the output
    path and writes the very lines [convert] writes for that workbook. *)
Theorem convert_bytes_writes_sheet_lines (self : XLSXtoJSONLConverter)
    (wb : workbook) (output_path : pathlike) (out : path)
    (fs fs1 : gmap path node) :
  orient self = "records" ->
  native_workbook self wb = true ->
  opens fs output_path "output.jsonl" out fs1 ->
  convert_bytes self (Xlsx wb) output_path fs
  = (<[out := File (Text (lines_text (sheet_lines self wb)))]> fs1, inr out).
Proof.
  intros Horient Hnative Hopens. rewrite convert_bytes_emit.
  rewrite (emit_after_open _ _ _ _ _ _ _ _ Hopens).
  unfold stream_sheets, bind. cbn [ExcelFile read_container lift].
  rewrite iter_sheet_records_kept by done.
  rewrite <- (map_map (fun sd => sheet_record self (fst sd) (snd sd)) inr).
  rewrite (write_records_ok Base _ _ (sheet_lines self wb) _ "")
    by (by apply native_records || apply lookup_insert_eq).
  by rewrite insert_insert_eq.
Qed.

Lemma convert_bytes_writes_sheet_lines_witness :
  convert_bytes default_converter (Xlsx sample_workbook)
    (AsStr "/tmp/sample.jsonl") sample_fs
  = (<[parse_path "/tmp/sample.jsonl" :=
         File (Text (lines_text (sheet_lines default_converter
                                   sample_workbook)))]> sample_fs,
     inr (parse_path "/tmp/sample.jsonl")).
Proof.
  apply (convert_bytes_writes_sheet_lines default_converter sample_workbook);
    [reflexivity | reflexivity | apply opens_sample_jsonl].
Defined.

(** X7: when the first kept sheet that the base encoder cannot serialise
    comes after some sheets it can, [convert_bytes] raises [TypeError]
    and leaves in the output file the lines of the sheets before it,
    and nothing of the sheets from it on. *)
Theorem convert_bytes_partial_output (self : XLSXtoJSONLConverter)
    (wb1 wb2 : workbook) (sheet : string) (df : DataFrame)
    (output_path : pathlike) (out : path) (fs fs1 : gmap path node) :
  orient self = "records" ->
  native_workbook self wb1 = true ->
  skipped self df = false ->
  native_sheet df = false ->
  opens fs output_path "output.jsonl" out fs1 ->
  convert_bytes self (Xlsx (wb1 ++ (sheet, df) :: wb2)) output_path fs
  = (<[out := File (Text (lines_text (sheet_lines self wb1)))]> fs1,
     inl TypeError).
Proof.
  intros Horient Hnative Hkept Hbad Hopens. rewrite convert_bytes_emit.
  rewrite (emit_after_open _ _ _ _ _ _ _ _ Hopens).
  unfold stream_sheets, bind. cbn [ExcelFile read_container lift].
  rewrite iter_sheet_records_kept by done.
  rewrite kept_sheets_app, map_app.
  change ((sheet, df) :: wb2) with ([(sheet, df)] ++ wb2).
  rewrite kept_sheets_app, map_app.
  assert (kept_sheets self [(sheet, df)] = [(sheet, df)]) as ->
    by (unfold kept_sheets; cbn [List.filter snd]; by rewrite Hkept).
  cbn [map app fst snd].
  rewrite <- (map_map (fun sd => sheet_record self (fst sd) (snd sd)) inr).
  rewrite (write_records_partial Base _ _ (sheet_lines self wb1) _ TypeError
             _ _ "").
  - by rewrite insert_insert_eq.
  - by apply native_records.
  - by rewrite dumps_base_sheet_record, Hbad.
  - apply lookup_insert_eq.
Qed.

Lemma convert_bytes_partial_output_witness :
  convert_bytes default_converter
    (Xlsx (sample_workbook ++ ("S", {| columns := ["d"];
                                        rows := [[CDatetime "2024-01-15"]] |})
                           :: sample_workbook))
    (AsStr "/tmp/sample.jsonl") sample_fs
  = (<[parse_path "/tmp/sample.jsonl" :=
         File (Text (lines_text (sheet_lines default_converter
                                   sample_workbook)))]> sample_fs,
     inl TypeError).
Proof.
  apply (convert_bytes_partial_output default_converter sample_workbook);
    [reflexivity | reflexivity | reflexivity | reflexivity
    | apply opens_sample_jsonl].
Defined.

(** ** The order of the effects *)

(** X8: the output file is opened, and emptied, before the workbook is
    read: when the output path resolves to the input path itself (an
    input named [*.jsonl] with the output left out, for one), [convert]
    raises [ValueError] and leaves the input an empty file. *)
Theorem convert_truncates_own_input (self : XLSXtoJSONLConverter)
    (input_path : pathlike) (output_path : option pathlike)
    (ip q : path) (fs fs1 : gmap path node) :
  Path_of input_path = inr ip ->
  with_suffix ip ".jsonl" = inr q ->
  opens fs (match output_path with None => AsPath q | Some o => o end)
    (name q) ip fs1 ->
  convert self input_path output_path fs
  = (<[ip := File (Text "")]> fs1, inl ValueError).
Proof.
  intros Hip Hq Hopens.
  pose proof (opens_output_fresh _ _ _ _ _ Hopens) as [Hparts _].
  rewrite convert_emit. unfold bind at 1, lift. rewrite Hip, !Hq.
  cbn [rbind]. unfold bind at 1. unfold bind at 1.
  assert (emit self Custom (FromPath ip)
            (match output_path with None => AsPath q | Some o => o end)
            (name q) fs
          = (<[ip := File (Text "")]> fs1, inl ValueError)) as Hemit;
    [|by destruct output_path].
  rewrite (emit_after_open _ _ _ _ _ _ _ _ Hopens).
  unfold stream_sheets, bind. cbn [ExcelFile]. unfold gets, fs_lookup.
  destruct (parts ip); [done |]. by rewrite lookup_insert_eq.
Qed.

Lemma convert_truncates_own_input_witness :
  convert default_converter (AsStr "/tmp/data.jsonl") None jsonl_named_fs
  = (<[parse_path "/tmp/data.jsonl" := File (Text "")]> jsonl_named_fs,
     inl ValueError).
Proof.
  apply (convert_truncates_own_input default_converter
           (AsStr "/tmp/data.jsonl") None (parse_path "/tmp/data.jsonl")
           (parse_path "/tmp/data.jsonl")); [reflexivity | reflexivity |].
  apply opens_file_target; [reflexivity | by vm_compute | by vm_compute |].
  intros k Hk. cbn in Hk. assert (k = 1) as -> by lia. reflexivity.
Defined.

(** X9: when no file stands at the input path, [convert] raises
    [FileNotFoundError] only after it has made the directories of the
    output path and created the output file, which is left empty. *)
Theorem convert_missing_input (self : XLSXtoJSONLConverter)
    (input_path : pathlike) (output_path : option pathlike)
    (ip q out : path) (fs fs1 : gmap path node) :
  Path_of input_path = inr ip ->
  with_suffix ip ".jsonl" = inr q ->
  opens fs (match output_path with None => AsPath q | Some o => o end)
    (name q) out fs1 ->
  fs_lookup fs1 ip = None ->
  out <> ip ->
  convert self input_path output_path fs
  = (<[out := File (Text "")]> fs1, inl FileNotFoundError).
Proof.
  intros Hip Hq Hopens Hin Hne.
  rewrite convert_emit. unfold bind at 1, lift. rewrite Hip, !Hq.
  cbn [rbind]. unfold bind at 1. unfold bind at 1.
  assert (emit self Custom (FromPath ip)
            (match output_path with None => AsPath q | Some o => o end)
            (name q) fs
          = (<[out := File (Text "")]> fs1, inl FileNotFoundError)) as Hemit;
    [|by destruct output_path].
  rewrite (emit_after_open _ _ _ _ _ _ _ _ Hopens).
  unfold stream_sheets, bind. cbn [ExcelFile]. unfold gets.
  assert (fs_lookup (<[out := File (Text "")]> fs1) ip = None) as ->; [|done].
  unfold fs_lookup in *. destruct (parts ip); [done |].
  by rewrite lookup_insert_ne.
Qed.

Lemma convert_missing_input_witness :
  convert default_converter (AsStr "/tmp/absent.xlsx")
    (Some (AsStr "/tmp/sample.jsonl")) sample_fs
  = (<[parse_path "/tmp/sample.jsonl" := File (Text "")]> sample_fs,
     inl FileNotFoundError).
Proof.
  apply (convert_missing_input default_converter (AsStr "/tmp/absent.xlsx")
           (Some (AsStr "/tmp/sample.jsonl")) (parse_path "/tmp/absent.xlsx")
           (parse_path "/tmp/absent.jsonl"));
    [reflexivity | reflexivity | apply opens_sample_jsonl | by vm_compute
    | discriminate].
Defined.

(** ** What a conversion leaves alone *)

Lemma mkdir_from_adds_dirs r made todo fs q :
  (mkdir_from r made todo fs).1 !! q = fs !! q
  \/ (fs !! q = None /\ (mkdir_from r made todo fs).1 !! q = Some Dir).
Proof.
  revert made fs. induction todo as [|x todo IH]; intros made fs; [by left |].
  cbn [mkdir_from].
  destruct (fs !! {| root := r; parts := made ++ [x] |}) as [[|c]|] eqn:Hp.
  - apply IH.
  - by left.
  - destruct (decide ({| root := r; parts := made ++ [x] |} = q)) as [<-|Hne].
    + right. split; [done |].
      apply mkdir_from_preserves, lookup_insert_eq.
    + destruct (IH (made ++ [x])
                  (<[{| root := r; parts := made ++ [x] |} := Dir]> fs))
        as [Heq|[Hnone Hdir]].
      * left. by rewrite Heq, lookup_insert_ne.
      * right. by rewrite lookup_insert_ne in Hnone.
Qed.

Lemma convert_ok_emit self input_path output_path fs fs' out :
  convert self input_path output_path fs = (fs', inr out) ->
  exists ip target dn,
    Path_of input_path = inr ip
    /\ emit self Custom (FromPath ip) target dn fs = (fs', inr out).
Proof.
  rewrite convert_emit. intros Hrun.
  apply bind_ok in Hrun as (fs0 & ip & [-> Hip]%lift_ok & Hrun).
  apply bind_ok in Hrun as (fs0 & target & [-> Ht]%lift_ok & Hrun).
  apply bind_ok in Hrun as (fs0 & dn & [-> Hdn]%lift_ok & Hrun).
  by exists ip, target, dn.
Qed.

Lemma emit_frame self enc excel target dn fs fs' out q :
  emit self enc excel target dn fs = (fs', inr out) ->
  q <> out ->
  fs' !! q = fs !! q \/ (fs !! q = None /\ fs' !! q = Some Dir).
Proof.
  intros Hrun Hne.
  apply emit_ok in Hrun as (fs1 & xls & _ & Hm & _ & _ & Hw).
  pose proof (write_records_state _ _ _ _ "" _ _ (lookup_insert_eq _ _ _) Hw)
    as [t ->].
  rewrite insert_insert_eq, lookup_insert_ne by done.
  pose proof (mkdir_from_adds_dirs (root (parent out)) []
                (parts (parent out)) fs q) as H.
  fold (mkdir_parents (parent out)) in H. by rewrite Hm in H.
Qed.

Lemma emit_output self enc excel target dn fs fs' out :
  emit self enc excel target dn fs = (fs', inr out) ->
  (exists t, fs' !! out = Some (File (Text t)))
  /\ parts out <> []
  /\ forall k, 0 < k < length (parts out) ->
       fs' !! {| root := root out; parts := take k (parts out) |} = Some Dir.
Proof.
  intros Hrun.
  apply emit_ok in Hrun as (fs1 & xls & _ & Hm & Ho & _ & Hw).
  pose proof (open_w_ok _ _ _ Ho) as (_ & Hnd & _).
  pose proof (fs_lookup_not_Dir _ _ Hnd) as [Hparts _].
  pose proof (write_records_state _ _ _ _ "" _ _ (lookup_insert_eq _ _ _) Hw)
    as [t ->].
  rewrite insert_insert_eq.
  split; [exists t; apply lookup_insert_eq |]. split; [done |].
  intros k Hk.
  rewrite lookup_insert_ne.
  - pose proof (mkdir_from_dirs _ _ _ _ _ k Hm) as Hd.
    cbn [parent parts root app] in Hd.
    rewrite <- (firstn_removelast (parts out)) by lia. apply Hd.
    rewrite removelast_firstn_len, length_take. lia.
  - intros Heq. apply (f_equal parts), (f_equal length) in Heq.
    cbn [parts] in Heq. rewrite length_take in Heq. lia.
Qed.

(** X10: a conversion that returns changes nothing but its output file
    and the directories it had to make: every other path holds what it
    held before, or a new directory where there was nothing.  This holds
    for [convert] and for [convert_bytes]. *)
Theorem conversion_frame (self : XLSXtoJSONLConverter) :
  (forall input_path output_path fs fs' out q,
     convert self input_path output_path fs = (fs', inr out) ->
     q <> out ->
     fs' !! q = fs !! q \/ (fs !! q = None /\ fs' !! q = Some Dir))
  /\ (forall file_bytes output_path fs fs' out q,
        convert_bytes self file_bytes output_path fs = (fs', inr out) ->
        q <> out ->
        fs' !! q = fs !! q \/ (fs !! q = None /\ fs' !! q = Some Dir)).
Proof.
  split.
  - intros input_path output_path fs fs' out q Hrun Hne.
    apply convert_ok_emit in Hrun as (ip & target & dn & _ & Hrun).
    by eapply emit_frame.
  - intros file_bytes output_path fs fs' out q. rewrite convert_bytes_emit.
    apply emit_frame.
Qed.

Lemma conversion_frame_witness :
  fst (convert default_converter (AsStr "/tmp/sample.xlsx") None sample_fs)
    !! parse_path "/tmp/sample.xlsx"
  = sample_fs !! parse_path "/tmp/sample.xlsx"
  \/ (sample_fs !! parse_path "/tmp/sample.xlsx" = None
      /\ fst (convert default_converter (AsStr "/tmp/sample.xlsx") None
                sample_fs) !! parse_path "/tmp/sample.xlsx" = Some Dir).
Proof.
  apply (proj1 (conversion_frame default_converter)
           (AsStr "/tmp/sample.xlsx") None sample_fs _
           (parse_path "/tmp/sample.jsonl")); [|discriminate].
  rewrite (convert_omitted_returns default_converter _
             (parse_path "/tmp/sample.xlsx") sample_workbook
             (parse_path "/tmp/sample.jsonl")); try reflexivity.
  - intros k Hk. cbn in Hk. assert (k = 1) as -> by lia. reflexivity.
  - discriminate.
Defined.

(** X11: after a conversion returns, the returned path is a text file
    and every directory above it exists, for [convert] and for
    [convert_bytes]. *)
Theorem conversion_output_exists (self : XLSXtoJSONLConverter) :
  (forall input_path output_path fs fs' out,
     convert self input_path output_path fs = (fs', inr out) ->
     (exists t, fs' !! out = Some (File (Text t)))
     /\ parts out <> []
     /\ forall k, 0 < k < length (parts out) ->
          fs' !! {| root := root out; parts := take k (parts out) |}
          = Some Dir)
  /\ (forall file_bytes output_path fs fs' out,
        convert_bytes self file_bytes output_path fs = (fs', inr out) ->
        (exists t, fs' !! out = Some (File (Text t)))
        /\ parts out <> []
        /\ forall k, 0 < k < length (parts out) ->
             fs' !! {| root := root out; parts := take k (parts out) |}
             = Some Dir).
Proof.
  split.
  - intros input_path output_path fs fs' out Hrun.
    apply convert_ok_emit in Hrun as (ip & target & dn & _ & Hrun).
    by eapply emit_output.
  - intros file_bytes output_path fs fs' out. rewrite convert_bytes_emit.
    apply emit_output.
Qed.

Lemma conversion_output_exists_witness :
  exists t,
    fst (convert default_converter (AsStr "/tmp/sample.xlsx") None sample_fs)
      !! parse_path "/tmp/sample.jsonl" = Some (File (Text t)).
Proof.
  apply (proj1 (conversion_output_exists default_converter)
           (AsStr "/tmp/sample.xlsx") None sample_fs).
  rewrite (convert_omitted_returns default_converter _
             (parse_path "/tmp/sample.xlsx") sample_workbook
             (parse_path "/tmp/sample.jsonl")); try reflexivity.
  - intros k Hk. cbn in Hk. assert (k = 1) as -> by lia. reflexivity.
  - discriminate.
Defined.

Lemma open_w_state p fs fs' r :
  open_w p fs = (fs', r) ->
  (fs' = fs /\ exists e, r = inl e)
  \/ (fs' = <[p := File (Text "")]> fs /\ fs !! p <> Some Dir /\ r = inr tt).
Proof.
  unfold open_w.
  destruct (fs_lookup fs p) as [[|c]|] eqn:Hp.
  - intros [= <- <-]. left. eauto.
  - destruct (fs_lookup fs (parent p)) as [[|c']|]; intros [= <- <-];
      [right | left; eauto | left; eauto].
    split; [done |]. split; [|done].
    unfold fs_lookup in Hp. destruct (parts p); [done |]. by rewrite Hp.
  - destruct (fs_lookup fs (parent p)) as [[|c']|]; intros [= <- <-];
      [right | left; eauto | left; eauto].
    split; [done |]. split; [|done].
    unfold fs_lookup in Hp. destruct (parts p); [done |]. by rewrite Hp.
Qed.

Lemma stream_sheets_state self enc excel out fs fs' r t :
  fs !! out = Some (File (Text t)) ->
  stream_sheets self enc excel out fs = (fs', r) ->
  exists t', fs' = <[out := File (Text t')]> fs.
Proof.
  intros Hout. unfold stream_sheets, bind.
  destruct (ExcelFile excel fs) as [fs1 [e|xls]] eqn:He;
    pose proof (ExcelFile_state _ _ _ _ He) as ->.
  - intros [= <- <-]. exists t. by rewrite insert_id.
  - by apply write_records_state with (t := t).
Qed.

Lemma emit_keeps self enc excel target dn fs fs' r q n :
  emit self enc excel target dn fs = (fs', r) ->
  fs !! q = Some n ->
  fs' !! q = Some n
  \/ (_normalize_output_path fs target dn = inr q
      /\ exists c t, n = File c /\ fs' !! q = Some (File (Text t))).
Proof.
  unfold emit, bind at 1, gets. intros Hrun Hq.
  destruct (_normalize_output_path fs target dn) as [e|out].
  { injection Hrun as <- <-. by left. }
  unfold bind at 1 in Hrun.
  destruct (mkdir_parents (parent out) fs) as [fs1 r1] eqn:Hm.
  assert (fs1 !! q = Some n) as Hq1.
  { pose proof (mkdir_from_preserves (root (parent out)) []
                  (parts (parent out)) fs q n Hq) as H.
    fold (mkdir_parents (parent out)) in H. by rewrite Hm in H. }
  destruct r1 as [e|[]]; [injection Hrun as <- <-; by left |].
  unfold bind at 1 in Hrun.
  destruct (open_w out fs1) as [fs2 r2] eqn:Ho.
  apply open_w_state in Ho as [[-> [e ->]]|(-> & Hnd & ->)].
  { injection Hrun as <- <-. by left. }
  unfold bind at 1 in Hrun.
  destruct (stream_sheets self enc excel out (<[out := File (Text "")]> fs1))
    as [fs3 r3] eqn:Hs.
  apply (stream_sheets_state _ _ _ _ _ _ _ "") in Hs as [t' ->];
    [|apply lookup_insert_eq].
  rewrite insert_insert_eq in Hrun.
  assert (fs' = <[out := File (Text t')]> fs1) as ->
    by (destruct r3; unfold ret in Hrun; apply (f_equal fst) in Hrun;
        cbn [fst] in Hrun; congruence).
  destruct (decide (out = q)) as [->|Hne].
  - right. split; [done |]. destruct n as [|c]; [done |].
    exists c, t'. split; [done |]. apply lookup_insert_eq.
  - left. by rewrite lookup_insert_ne.
Qed.

Lemma convert_any_emit self input_path output_path fs fs' r :
  convert self input_path output_path fs = (fs', r) ->
  fs' = fs
  \/ exists ip sfx,
       Path_of input_path = inr ip
       /\ with_suffix ip ".jsonl" = inr sfx
       /\ emit self Custom (FromPath ip)
            (match output_path with None => AsPath sfx | Some o => o end)
            (name sfx) fs = (fs', r).
Proof.
  rewrite convert_emit. unfold bind at 1, lift.
  destruct (Path_of input_path) as [e|ip]; [intros [= <- _]; by left |].
  unfold bind at 1. unfold bind at 1.
  destruct (with_suffix ip ".jsonl") as [e|sfx] eqn:Hsfx; cbn [rbind].
  - destruct output_path; intros [= <- _]; by left.
  - intros Hrun. right. exists ip, sfx. split; [done |]. split; [done |].
    by destruct output_path.
Qed.

(** X12: whatever the outcome of a conversion, an exception included,
    nothing that was in the file system is removed or altered, except
    the output file: a path keeps what it held, unless it is the path
    the output resolves to and held a file, which is then a text file.
    This holds for [convert] and for [convert_bytes]. *)
Theorem conversion_never_removes (self : XLSXtoJSONLConverter) :
  (forall input_path output_path fs fs' r q n,
     convert self input_path output_path fs = (fs', r) ->
     fs !! q = Some n ->
     fs' !! q = Some n
     \/ (exists ip sfx c t,
           Path_of input_path = inr ip
           /\ with_suffix ip ".jsonl" = inr sfx
           /\ _normalize_output_path fs
                (match output_path with None => AsPath sfx | Some o => o end)
                (name sfx) = inr q
           /\ n = File c
           /\ fs' !! q = Some (File (Text t))))
  /\ (forall file_bytes output_path fs fs' r q n,
        convert_bytes self file_bytes output_path fs = (fs', r) ->
        fs !! q = Some n ->
        fs' !! q = Some n
        \/ (_normalize_output_path fs output_path "output.jsonl" = inr q
            /\ exists c t, n = File c /\ fs' !! q = Some (File (Text t)))).
Proof.
  split.
  - intros input_path output_path fs fs' r q n Hrun Hq.
    apply convert_any_emit in Hrun as [->|(ip & sfx & Hip & Hsfx & Hrun)];
      [by left |].
    destruct (emit_keeps _ _ _ _ _ _ _ _ _ _ Hrun Hq)
      as [Hsame|(Hn & c & t & -> & Ht)]; [by left |].
    right. by exists ip, sfx, c, t.
  - intros file_bytes output_path fs fs' r q n.
    rewrite convert_bytes_emit. apply emit_keeps.
Qed.

Lemma conversion_never_removes_witness :
  fst (convert_bytes default_converter (Xlsx dated_workbook)
         (AsStr "/tmp/out.jsonl") dated_fs) !! parse_path "/tmp/in.xlsx"
  = Some (File (Xlsx dated_workbook))
  \/ (_normalize_output_path dated_fs (AsStr "/tmp/out.jsonl") "output.jsonl"
      = inr (parse_path "/tmp/in.xlsx")
      /\ exists c t,
           File (Xlsx dated_workbook) = File c
           /\ fst (convert_bytes default_converter (Xlsx dated_workbook)
                     (AsStr "/tmp/out.jsonl") dated_fs)
                !! parse_path "/tmp/in.xlsx" = Some (File (Text t))).
Proof.
  apply (proj2 (conversion_never_removes default_converter)
           (Xlsx dated_workbook) (AsStr "/tmp/out.jsonl") dated_fs _
           (snd (convert_bytes default_converter (Xlsx dated_workbook)
                   (AsStr "/tmp/out.jsonl") dated_fs))).
  - apply surjective_pairing.
  - reflexivity.
Defined.

(** ** Further rules of the output path *)

(** X13: a target without extension whose last component has a dot (a
    name that starts or ends with its only dot, such as [.hidden] or
    [v1.]) and that does not end in a separator is not taken for a
    directory: unless it is one already, it is used as it is. *)
Theorem normalize_dotted_name_verbatim (fs : gmap path node)
    (output_path : pathlike) (default_filename : string) (p : path) :
  Path_of output_path = inr p ->
  is_dir fs p = false ->
  suffix p = "" ->
  endswith "/" (str_of output_path) = false ->
  count_char "." (name p) <> 0 ->
  _normalize_output_path fs output_path default_filename = inr p.
Proof.
  intros Hp Hdir Hsfx Hsep Hdot. rewrite normalize_unfold.
  assert (decoded output_path = inr output_path) as ->
    by (destruct output_path; [done | discriminate Hp | done]).
  cbn [rbind]. rewrite Hp. cbn [rbind]. rewrite Hdir.
  unfold directory_like. rewrite Hsep.
  by destruct (Nat.eqb_spec (count_char "." (name p)) 0);
    rewrite ?andb_false_r.
Qed.

Lemma normalize_dotted_name_verbatim_witness :
  _normalize_output_path ∅ (AsStr "/tmp/.hidden") "output.jsonl"
  = inr (parse_path "/tmp/.hidden").
Proof.
  apply normalize_dotted_name_verbatim; try reflexivity. by vm_compute.
Defined.

(** X14: a target given as bytes that are not valid UTF-8 makes both
    entry points raise [UnicodeDecodeError] before anything is touched:
    no directory is made and no file is opened. *)
Theorem undecodable_target_no_effect (self : XLSXtoJSONLConverter)
    (b : string) (fs : gmap path node) :
  utf8_valid b = false ->
  (forall file_bytes,
     convert_bytes self file_bytes (AsBytes b) fs
     = (fs, inl UnicodeDecodeError))
  /\ (forall input_path ip q,
        Path_of input_path = inr ip ->
        with_suffix ip ".jsonl" = inr q ->
        convert self input_path (Some (AsBytes b)) fs
        = (fs, inl UnicodeDecodeError)).
Proof.
  intros Hb.
  assert (forall dn, _normalize_output_path fs (AsBytes b) dn
                     = inl UnicodeDecodeError) as Hn.
  { intros dn. rewrite normalize_unfold. cbn [decoded].
    unfold decode_utf8. by rewrite Hb. }
  split.
  - intros file_bytes. rewrite convert_bytes_emit.
    unfold emit, bind, gets. by rewrite Hn.
  - intros input_path ip q Hip Hq. rewrite convert_emit.
    unfold bind at 1, lift. rewrite Hip, Hq. cbn [rbind].
    unfold bind at 1. unfold bind at 1.
    unfold emit, bind, gets. by rewrite Hn.
Qed.

Lemma undecodable_target_no_effect_witness :
  convert_bytes default_converter (Xlsx sample_workbook)
    (AsBytes (String (ascii_of_nat 255) "/tmp/")) sample_fs
  = (sample_fs, inl UnicodeDecodeError).
Proof.
  apply (undecodable_target_no_effect default_converter
           (String (ascii_of_nat 255) "/tmp/") sample_fs).
  reflexivity.
Defined.

(** ** The sheet reader of the module *)

(** X15: on a workbook file, [parse_excel_to_dict_list] returns for a
    worksheet the very list of row dicts that the converter puts under
    [rows] in the record of that sheet (empty sheets kept), the empty
    list exactly when the sheet has no data row, and it leaves the file
    system as it is. *)
Theorem parse_excel_rows_of_record (filepath sheet_name : string)
    (fs : gmap path node) (wb : workbook) (df : DataFrame) :
  fs_lookup fs (parse_path filepath) = Some (File (Xlsx wb)) ->
  sheet_by_name sheet_name wb = Some df ->
  (columns df = [] -> rows df = []) ->
  exists data,
    parse_excel_to_dict_list filepath sheet_name fs = (fs, inr (PList data))
    /\ (data = [] <-> rows df = [])
    /\ forall self,
         orient self = "records" ->
         skip_empty_sheets self = false ->
         exists record,
           _sheet_to_record self df sheet_name = inr (Some record)
           /\ record_rows record = Some data.
Proof.
  intros Hfile Hsheet Hws.
  exists (map (fun d => PDict (cells_dict d)) (sheet_rows df)).
  assert (df_empty df = true <-> rows df = []) as Hempty.
  { unfold df_empty. destruct (columns df), (rows df); cbn in *;
      intuition congruence. }
  assert (map (fun d => PDict (cells_dict d)) (sheet_rows df) = []
          <-> rows df = []) as Hnil.
  { unfold sheet_rows, where_notna_None. cbn [rows columns].
    destruct (rows df); cbn; intuition congruence. }
  split; [|split; [done |]].
  - unfold parse_excel_to_dict_list, read_excel, bind. cbn [ExcelFile].
    unfold gets. rewrite Hfile. cbn [read_container]. rewrite Hsheet.
    unfold ret. destruct (df_empty df) eqn:He.
    + assert (rows df = []) as Hr by by apply Hempty.
      apply Hnil in Hr. by rewrite Hr.
    + by rewrite to_dict_records_cells.
  - intros self Horient Hskip. eexists.
    split; [|apply record_rows_sheet_record].
    apply sheet_to_record_kept; [done |].
    unfold skipped. rewrite Hskip. apply andb_false_r.
Qed.

Lemma parse_excel_rows_of_record_witness :
  exists data,
    parse_excel_to_dict_list "/tmp/sample.xlsx" "Meta" sample_fs
    = (sample_fs, inr (PList data))
    /\ (data = [] <-> [[CInt 10]] = []).
Proof.
  destruct (parse_excel_rows_of_record "/tmp/sample.xlsx" "Meta" sample_fs
              sample_workbook {| columns := ["col"]; rows := [[CInt 10]] |}
              eq_refl eq_refl ltac:(discriminate))
    as (data & H1 & H2 & _).
  by exists data.
Defined.

(** ** The encoder hook, by cases *)

(** X16: [CustomJSONEncoder.default] has three outcomes and no other: a
    NumPy integer comes back as the plain integer of the same value, so
    that it is written with the digits of a Python integer; an instance
    of the imported [DateTime] class (click's parameter type, which has
    no [isoformat]) raises [AttributeError]; everything else, date/time
    values included, comes back as [None].  It never returns a string. *)
Theorem default_outcomes (obj : pyobj) :
  (exists z, obj = PCell (CNpInt z) /\ default obj = inr (CInt z)
             /\ dumps Custom obj = dumps Custom (PCell (CInt z)))
  \/ (obj = PClickDateTime /\ default obj = inl AttributeError
      /\ dumps Custom obj = inl AttributeError)
  \/ (is_np_integer obj = false /\ type_is_DateTime obj = false
      /\ default obj = inr CNone).
Proof.
  destruct obj as [c| |l|d].
  - destruct c; try (right; right; by repeat split). left. eauto.
  - right. by left.
  - right. right. by repeat split.
  - right. right. by repeat split.
Qed.

(** ** The exceptions of a conversion *)

Lemma with_suffix_error p sfx e : with_suffix p sfx = inl e -> e = ValueError.
Proof.
  unfold with_suffix.
  repeat match goal with
         | |- context [if ?b then _ else _] => destruct b
         end; congruence.
Qed.

Lemma normalize_error fs target dn e :
  _normalize_output_path fs target dn = inl e -> e = UnicodeDecodeError.
Proof.
  rewrite normalize_unfold. destruct target as [s|b|p]; cbn; try done.
  unfold decode_utf8. destruct (utf8_valid b); cbn; congruence.
Qed.

Lemma mkdir_from_error r made todo fs fs' e :
  mkdir_from r made todo fs = (fs', inl e) -> io_error e = true.
Proof.
  revert made fs. induction todo as [|x todo IH]; intros made fs; [done |].
  cbn [mkdir_from].
  destruct (fs !! {| root := r; parts := made ++ [x] |}) as [[|c]|];
    [apply IH | | apply IH].
  intros [= _ <-]. by destruct todo.
Qed.

Lemma ExcelFile_error excel fs fs' e :
  ExcelFile excel fs = (fs', inl e) -> io_error e = true.
Proof.
  destruct excel as [p|c]; cbn; unfold gets, lift.
  - destruct (fs_lookup fs p) as [[|[t|wb]]|]; cbn; by intros [= _ <-].
  - destruct c; cbn; by intros [= _ <-].
Qed.

(** The steps of a conversion, whatever its outcome. *)
Lemma emit_cases self enc excel target dn fs fs' r :
  emit self enc excel target dn fs = (fs', r) ->
  (exists e, r = inl e /\ io_error e = true)
  \/ exists out fs1 r',
       opens fs target dn out fs1
       /\ stream_sheets self enc excel out (<[out := File (Text "")]> fs1)
          = (fs', r')
       /\ r = rbind r' (fun _ => inr out).
Proof.
  unfold emit, bind at 1, gets. intros Hrun.
  destruct (_normalize_output_path fs target dn) as [e|out] eqn:Hn.
  { left. exists e. split; [congruence |].
    by rewrite (normalize_error _ _ _ _ Hn). }
  unfold bind at 1 in Hrun.
  destruct (mkdir_parents (parent out) fs) as [fs1 [e|[]]] eqn:Hm.
  { left. exists e. split; [congruence |]. by eapply mkdir_from_error. }
  unfold bind at 1 in Hrun.
  destruct (open_w out fs1) as [fs2 r2] eqn:Ho.
  pose proof Ho as Ho'.
  apply open_w_state in Ho' as [[Heq [e ->]]|(Heq & Hnd & ->)]; subst fs2.
  { left. exists e. split; [congruence |].
    unfold open_w in Ho.
    destruct (fs_lookup fs1 out) as [[|c]|];
      destruct (fs_lookup fs1 (parent out)) as [[|c']|];
      try discriminate Ho; by inversion Ho. }
  right. unfold bind at 1 in Hrun.
  destruct (stream_sheets self enc excel out (<[out := File (Text "")]> fs1))
    as [fs3 r3] eqn:Hs.
  exists out, fs1, r3. split; [done |].
  destruct r3 as [e|[]]; unfold ret in Hrun; by injection Hrun as <- <-.
Qed.

Lemma stream_custom_error self excel out fs fs' e t :
  orient self = "records" ->
  fs !! out = Some (File (Text t)) ->
  stream_sheets self Custom excel out fs = (fs', inl e) ->
  io_error e = true.
Proof.
  intros Horient Hout. unfold stream_sheets, bind.
  destruct (ExcelFile excel fs) as [fs1 [e1|xls]] eqn:He.
  - intros [= _ <-]. by eapply ExcelFile_error.
  - pose proof (ExcelFile_state _ _ _ _ He) as ->.
    by rewrite (write_custom_sheets _ _ _ _ t).
Qed.

(** X17: with the records layout, [convert] on a path it accepts raises
    only errors of path handling, of the file system or of the
    spreadsheet reader: no cell value makes it raise [TypeError], since
    its encoder turns whatever it cannot serialise into [null]. *)
Theorem convert_raises_no_encoding_error (self : XLSXtoJSONLConverter)
    (input_path : pathlike) (output_path : option pathlike) (ip : path)
    (fs fs' : gmap path node) (e : error) :
  orient self = "records" ->
  Path_of input_path = inr ip ->
  convert self input_path output_path fs = (fs', inl e) ->
  io_error e = true.
Proof.
  intros Horient Hip. rewrite convert_emit.
  unfold bind at 1, lift. rewrite Hip. unfold bind at 1. unfold bind at 1.
  destruct (with_suffix ip ".jsonl") as [e0|q] eqn:Hq; cbn [rbind].
  - apply with_suffix_error in Hq as ->.
    destruct output_path; by intros [= _ <-].
  - intros Hrun.
    assert (exists target,
              emit self Custom (FromPath ip) target (name q) fs
              = (fs', inl e)) as [target Hemit]
      by (destruct output_path; eauto).
    apply emit_cases in Hemit as [(e' & [= <-] & He)|
                                  (out & fs1 & r' & Hopens & Hs & Hr)];
      [done |].
    destruct r' as [e'|[]]; cbn [rbind] in Hr; [|done].
    injection Hr as <-.
    by eapply (stream_custom_error _ _ _ _ _ _ ""), Hs;
      [|apply lookup_insert_eq].
Qed.

Lemma convert_raises_no_encoding_error_witness :
  io_error FileNotFoundError = true.
Proof.
  apply (convert_raises_no_encoding_error default_converter
           (AsStr "/tmp/absent.xlsx") (Some (AsStr "/tmp/sample.jsonl"))
           (parse_path "/tmp/absent.xlsx") sample_fs
           (fst (convert default_converter (AsStr "/tmp/absent.xlsx")
                   (Some (AsStr "/tmp/sample.jsonl")) sample_fs)));
    [reflexivity | reflexivity |].
  rewrite (surjective_pairing
             (convert default_converter (AsStr "/tmp/absent.xlsx")
                (Some (AsStr "/tmp/sample.jsonl")) sample_fs)) at 1.
  f_equal.
Defined.

(** X18: with the records layout, [convert_bytes] raises [TypeError]
    only on a workbook with a kept sheet that holds a value the base
    encoder cannot serialise (a date/time, a NumPy integer, NaT or
    another object). *)
Theorem convert_bytes_TypeError_cause (self : XLSXtoJSONLConverter)
    (wb : workbook) (output_path : pathlike) (fs fs' : gmap path node) :
  orient self = "records" ->
  convert_bytes self (Xlsx wb) output_path fs = (fs', inl TypeError) ->
  native_workbook self wb = false.
Proof.
  intros Horient. rewrite convert_bytes_emit. intros Hrun.
  apply emit_cases in Hrun as [(e' & [= <-] & He)|
                               (out & fs1 & r' & Hopens & Hs & Hr)];
    [done |].
  destruct r' as [e'|[]]; cbn [rbind] in Hr; [|done]. injection Hr as <-.
  destruct (native_workbook self wb) eqn:Hnative; [|done].
  unfold stream_sheets, bind in Hs. cbn [ExcelFile read_container lift] in Hs.
  rewrite iter_sheet_records_kept in Hs by done.
  rewrite <- (map_map (fun sd => sheet_record self (fst sd) (snd sd)) inr)
    in Hs.
  rewrite (write_records_ok Base _ _ (sheet_lines self wb) _ "") in Hs
    by (by apply native_records || apply lookup_insert_eq).
  done.
Qed.

Lemma convert_bytes_TypeError_cause_witness :
  native_workbook default_converter dated_workbook = false.
Proof.
  apply (convert_bytes_TypeError_cause default_converter dated_workbook
           (AsStr "/tmp/out.jsonl") dated_fs
           (fst (convert_bytes default_converter (Xlsx dated_workbook)
                   (AsStr "/tmp/out.jsonl") dated_fs)));
    [reflexivity |].
  rewrite (surjective_pairing
             (convert_bytes default_converter (Xlsx dated_workbook)
                (AsStr "/tmp/out.jsonl") dated_fs)) at 1.
  f_equal.
Defined.

(** ** A directory as target *)

Lemma split_on_no_sep (c : ascii) (acc s : string) :
  count_char c s = 0 -> split_on c acc s = [String.rev_app acc s].
Proof.
  revert acc. induction s as [|a s IH]; intros acc; [done |].
  cbn [count_char split_on]. destruct (Ascii.eqb a c); [done |].
  intros Hs. by rewrite IH.
Qed.

Lemma parse_root_no_sep (s : string) :
  count_char "/" s = 0 -> parse_root s = "".
Proof.
  destruct s as [|a s]; [done |]. cbn [count_char].
  destruct (Ascii.eqb_spec a "/") as [->|Hne]; [done |]. intros _.
  destruct a as [[] [] [] [] [] [] [] []]; try done.
Qed.

(** A plain file name is a path of one component. *)
Lemma parse_path_name (nm : string) :
  count_char "/" nm = 0 -> nm <> "" -> nm <> "." ->
  parse_path nm = {| root := ""; parts := [nm] |}.
Proof.
  intros Hsep Hnm Hdot. unfold parse_path.
  rewrite parse_root_no_sep, split_on_no_sep by done.
  cbn [String.rev_app List.filter].
  apply String.eqb_neq in Hnm, Hdot. by rewrite Hnm, Hdot.
Qed.

Lemma joinpath_name (p : path) (nm : string) :
  count_char "/" nm = 0 -> nm <> "" -> nm <> "." ->
  joinpath p nm = {| root := root p; parts := parts p ++ [nm] |}.
Proof.
  intros Hsep Hnm Hdot. unfold joinpath. by rewrite parse_path_name.
Qed.

Lemma count_char_take (c : ascii) (n : nat) (s : string) :
  count_char c (string_take n s) <= count_char c s.
Proof.
  revert s. induction n as [|n IH]; intros [|a s]; cbn; try lia.
  specialize (IH s). lia.
Qed.

Lemma with_suffix_name (p q : path) :
  with_suffix p ".jsonl" = inr q ->
  exists stem,
    name q = stem +:+ ".jsonl"
    /\ count_char "/" stem <= count_char "/" (name p).
Proof.
  unfold with_suffix.
  change (negb (Nat.eqb (count_char "/" ".jsonl") 0)) with false. cbv iota.
  destruct (String.eqb (name p) ""); [done |].
  intros [= <-]. unfold name at 1. cbn [parts]. rewrite last_last.
  destruct (String.eqb (suffix p) ""); eexists; (split; [reflexivity |]);
    [lia | apply count_char_take].
Qed.

(** X19: with a target that is an existing directory, or that has no
    extension and no dot in its last component, the output path is the
    file named after the input, with the extension [.jsonl], directly
    inside the target; this is the path [convert] returns. *)
Theorem convert_into_directory (self : XLSXtoJSONLConverter)
    (input_path target : pathlike) (ip tp q : path) (fs : gmap path node) :
  Path_of input_path = inr ip ->
  count_char "/" (name ip) = 0 ->
  with_suffix ip ".jsonl" = inr q ->
  Path_of target = inr tp ->
  is_dir fs tp = true \/ (suffix tp = "" /\ count_char "." (name tp) = 0) ->
  _normalize_output_path fs target (name q)
  = inr {| root := root tp; parts := parts tp ++ [name q] |}
  /\ parent {| root := root tp; parts := parts tp ++ [name q] |} = tp
  /\ suffix {| root := root tp; parts := parts tp ++ [name q] |} = ".jsonl"
  /\ forall fs' out,
       convert self input_path (Some target) fs = (fs', inr out) ->
       out = {| root := root tp; parts := parts tp ++ [name q] |}.
Proof.
  intros Hip Hsep Hq Htp Hdir.
  pose proof (with_suffix_name _ _ Hq) as (stem & Hname & Hstem).
  pose proof (with_suffix_jsonl _ _ Hq) as (_ & Hext & _).
  assert (joinpath tp (name q)
          = {| root := root tp; parts := parts tp ++ [name q] |}) as Hjoin.
  { apply joinpath_name; rewrite Hname.
    - rewrite count_char_append. cbn. lia.
    - intros Heq. apply (f_equal String.length) in Heq.
      rewrite length_append in Heq. cbn in Heq. lia.
    - intros Heq. apply (f_equal String.length) in Heq.
      rewrite length_append in Heq. cbn in Heq. lia. }
  assert (_normalize_output_path fs target (name q)
          = inr {| root := root tp; parts := parts tp ++ [name q] |}) as Hn.
  { rewrite normalize_unfold.
    assert (decoded target = inr target) as ->
      by (destruct target; [done | discriminate Htp | done]).
    cbn [rbind]. rewrite Htp. cbn [rbind]. rewrite Hjoin.
    destruct Hdir as [-> | [Hsfx Hdot]]; [done |].
    unfold directory_like. rewrite Hsfx, Hdot. cbn [String.eqb andb Nat.eqb].
    rewrite orb_true_r. by destruct (is_dir fs tp). }
  split; [done |]. split; [|split].
  - unfold parent. cbn [root parts]. rewrite removelast_last. by destruct tp.
  - unfold suffix, name. cbn [parts]. rewrite last_last. exact Hext.
  - intros fs' out. rewrite convert_emit. intros Hrun.
    apply bind_ok in Hrun as (fs0 & ip' & [-> Hip']%lift_ok & Hrun).
    rewrite Hip in Hip'. injection Hip' as <-.
    apply bind_ok in Hrun as (fs0 & target' & [-> [= <-]]%lift_ok & Hrun).
    apply bind_ok in Hrun as (fs0 & dn & [-> Hdn]%lift_ok & Hrun).
    rewrite Hq in Hdn. injection Hdn as <-.
    apply emit_ok in Hrun as (_ & _ & Hn' & _). congruence.
Qed.

Lemma convert_into_directory_witness :
  _normalize_output_path sample_fs (AsStr "/tmp/nested/level") "sample.jsonl"
  = inr (parse_path "/tmp/nested/level/sample.jsonl").
Proof.
  apply (convert_into_directory default_converter (AsStr "/tmp/sample.xlsx")
           (AsStr "/tmp/nested/level") (parse_path "/tmp/sample.xlsx")
           (parse_path "/tmp/nested/level") (parse_path "/tmp/sample.jsonl")
           sample_fs); try reflexivity.
  right. split; reflexivity.
Defined.

(** ** A file in the way *)

Lemma mkdir_from_blocked r made todo1 x todo2 fs c :
  (forall k, 0 < k <= length todo1 ->
     fs !! {| root := r; parts := made ++ take k todo1 |} = Some Dir) ->
  fs !! {| root := r; parts := made ++ todo1 ++ [x] |} = Some (File c) ->
  mkdir_from r made (todo1 ++ x :: todo2) fs
  = (fs, inl (match todo2 with
              | [] => FileExistsError
              | _ => NotADirectoryError
              end)).
Proof.
  revert made. induction todo1 as [|y todo1 IH]; intros made Hdirs Hfile.
  - cbn [app mkdir_from] in *. by rewrite Hfile.
  - cbn [app mkdir_from].
    pose proof (Hdirs 1 ltac:(cbn; lia)) as H1.
    cbn [take] in H1. rewrite take_0 in H1. rewrite H1.
    apply IH.
    + intros k Hk. specialize (Hdirs (S k) ltac:(cbn; lia)).
      cbn [take] in Hdirs. by rewrite <- app_assoc.
    + by rewrite <- app_assoc.
Qed.

(** X20: when a file stands where a directory of the output path is
    needed, the entry point raises before it opens anything and leaves
    the file system as it is: [FileExistsError] when the file is the
    directory of the output file itself, [NotADirectoryError] when it is
    further up. *)
Theorem conversion_blocked_by_file (self : XLSXtoJSONLConverter)
    (file_bytes : content) (output_path : pathlike) (out : path)
    (pre post : list string) (x : string) (c : content)
    (fs : gmap path node) :
  _normalize_output_path fs output_path "output.jsonl" = inr out ->
  parts (parent out) = pre ++ x :: post ->
  (forall k, 0 < k <= length pre ->
     fs !! {| root := root out; parts := take k pre |} = Some Dir) ->
  fs !! {| root := root out; parts := pre ++ [x] |} = Some (File c) ->
  convert_bytes self file_bytes output_path fs
  = (fs, inl (match post with
              | [] => FileExistsError
              | _ => NotADirectoryError
              end)).
Proof.
  intros Hn Hparts Hdirs Hfile. rewrite convert_bytes_emit.
  unfold emit, bind at 1, gets. rewrite Hn. unfold bind at 1.
  unfold mkdir_parents. rewrite Hparts. cbn [parent root].
  by rewrite (mkdir_from_blocked _ _ _ _ _ _ c).
Qed.

Lemma conversion_blocked_by_file_witness :
  convert_bytes default_converter (Xlsx sample_workbook)
    (AsStr "/tmp/sample.xlsx/deep/out.jsonl") sample_fs
  = (sample_fs, inl NotADirectoryError).
Proof.
  apply (conversion_blocked_by_file default_converter (Xlsx sample_workbook)
           (AsStr "/tmp/sample.xlsx/deep/out.jsonl")
           (parse_path "/tmp/sample.xlsx/deep/out.jsonl")
           ["tmp"] ["deep"] "sample.xlsx" (Xlsx sample_workbook));
    try reflexivity.
  intros k Hk. cbn in Hk. assert (k = 1) as -> by lia. reflexivity.
Defined.

(** ** The wrappers *)

(** X21: the two wrappers convert with the default settings: on a
    workbook of values the base encoder serialises, once the output
    file is open, each returns the output path and leaves one line per
    sheet that is not empty, with its sheet name. *)
Theorem wrappers_write_default_lines (wb : workbook)
    (output_path : pathlike) (out : path) (fs fs1 : gmap path node) :
  native_workbook default_converter wb = true ->
  opens fs output_path "output.jsonl" out fs1 ->
  convert_xlsx_bytes_to_jsonl (Xlsx wb) output_path fs
  = (<[out := File (Text (lines_text (map default_line
                                        (nonempty_sheets wb))))]> fs1,
     inr out)
  /\ convert_xlsx_json (Xlsx wb) output_path fs
     = convert_xlsx_bytes_to_jsonl (Xlsx wb) output_path fs
  /\ count_char newline (lines_text (map default_line (nonempty_sheets wb)))
     = length (nonempty_sheets wb).
Proof.
  intros Hnative Hopens. split; [|split; [done |]].
  - unfold convert_xlsx_bytes_to_jsonl. rewrite convert_bytes_emit.
    rewrite (emit_after_open _ _ _ _ _ _ _ _ Hopens).
    unfold stream_sheets, bind. cbn [ExcelFile read_container lift].
    rewrite iter_sheet_records_kept by done.
    rewrite <- (map_map (fun sd => sheet_record default_converter
                                     (fst sd) (snd sd)) inr).
    rewrite (write_records_ok Base _ _ (sheet_lines default_converter wb) _ "")
      by (by apply native_records || apply lookup_insert_eq).
    by rewrite insert_insert_eq, sheet_lines_default.
  - rewrite <- sheet_lines_default.
    rewrite count_newline_lines by apply sheet_lines_no_newline.
    unfold sheet_lines. rewrite length_map.
    pose proof (sheet_lines_default wb) as H.
    apply (f_equal length) in H. unfold sheet_lines in H.
    by rewrite !length_map in H.
Qed.

Lemma wrappers_write_default_lines_witness :
  convert_xlsx_bytes_to_jsonl (Xlsx sample_workbook)
    (AsStr "/tmp/sample.jsonl") sample_fs
  = (<[parse_path "/tmp/sample.jsonl" :=
         File (Text (lines_text (map default_line
                                   (nonempty_sheets sample_workbook))))]>
       sample_fs,
     inr (parse_path "/tmp/sample.jsonl")).
Proof.
  apply (wrappers_write_default_lines sample_workbook
           (AsStr "/tmp/sample.jsonl") (parse_path "/tmp/sample.jsonl")
           sample_fs sample_fs); [reflexivity | apply opens_sample_jsonl].
Defined.
